(** * jsonlog2elasticsearch: the tail-and-deliver pipeline

    A shallow embedding of [jsonlog2elasticsearch/__init__.py]: the
    module-level buffer [TO_SEND], the line pipeline [process], the flush
    protocol [commit] with its helper [chunks], the rotation test
    [patched_is_new_file] and the index router [default_index_func].

    Python values are an inductive type, dictionaries are finite maps with
    string keys, integers are [Z].  Text is [string], one [ascii] per code
    point (the code points below 256).  The module's globals and the log
    handler are a record that is threaded through a state-and-exception
    monad; third-party libraries ([json], [elasticsearch.helpers],
    [dateutil], the clock, the platform's share of [strftime]) are the
    fields of a type class, so every statement holds for each behaviour
    they may have. *)

From Stdlib Require Import ZArith Ascii String List Lia.
From stdpp Require Import base option list gmap strings pretty.

Set Warnings "-register-all".
#[local] Open Scope string_scope.
#[local] Open Scope list_scope.
#[local] Open Scope Z_scope.

(** ** Python values *)

(** The values that [json.loads] produces, plus [PyObject] for an instance
    of any other class (a transform hook may return one).  A float is kept
    as its binary64 bit pattern. *)
Inductive pyvalue : Type :=
| PyNone
| PyBool (b : bool)
| PyInt (z : Z)
| PyFloat (bits : Z)
| PyStr (s : string)
| PyList (l : list pyvalue)
| PyDict (d : gmap string pyvalue)
| PyObject (cls : string).

(** [isinstance(v, dict)] *)
Definition isinstance_dict (v : pyvalue) : bool :=
  match v with PyDict _ => true | _ => false end.

(** Exceptions that reach this module. *)
Inductive exn : Type :=
| TypeError
| ValueError
| OverflowError
| FileNotFoundError
| TransportError
| HookError (name : string).

Inductive result (A : Type) : Type :=
| Return (a : A)
| Raise (e : exn).
Arguments Return {A} a.
Arguments Raise {A} e.

(** ** Log records

    The module formats each message eagerly with [%]; a record keeps the
    level, the format string and the arguments it was applied to. *)
Inductive log_level : Type := DEBUG | INFO | WARNING | ERROR.

Inductive log_arg : Type :=
| ArgInt (z : Z)           (* an integer under [%i] *)
| ArgStr (s : string)      (* a str under [%s] *)
| ArgValue (v : pyvalue)   (* [str(v)] under [%s] *)
| ArgType (v : pyvalue).   (* [type(v)] under [%s] *)

Record log_record : Type := mkLog
  { levelname : log_level;
    msg : string;
    args : list log_arg }.

(** ** Pending write operations *)

(** The dict literal appended by [process]. *)
Record action : Type := mkAction
  { _op_type : string;
    _index : pyvalue;
    _type : string;
    _source : gmap string pyvalue }.

(** What [elasticsearch.helpers.bulk(es, chunk, stats_only=False,
    raise_on_error=False)] does with one chunk: it returns the pair
    [(successes, errors)], or a transport-level exception escapes. *)
Inductive bulk_outcome : Type :=
| BulkReturn (success : Z) (errors : list pyvalue)
| BulkRaise (e : exn).

(** ** [chunks] *)

(** [range(0, stop, step)]: [ValueError] for a zero step, otherwise the
    multiples of [step] below [stop]. *)
Definition range0 (stop step : nat) : result (list nat) :=
  match step with
  | O => Raise ValueError
  | S _ =>
      Return (map (fun k => k * step)%nat
                  (seq 0 (Nat.div (stop + step - 1) step)))
  end.

(** [l[i:j]] for [0 <= i <= j]. *)
Definition slice {A : Type} (l : list A) (i j : nat) : list A :=
  take (j - i) (drop i l).

(** [chunks(l, n)], the generator run to exhaustion. *)
Definition chunks {A : Type} (l : list A) (n : nat) : result (list (list A)) :=
  match range0 (length l) n with
  | Return starts => Return (map (fun i => slice l i (i + n)) starts)
  | Raise e => Raise e
  end.

(** ** The [datetime] library

    The part of Python's [datetime] that [default_index_func] runs:
    proleptic Gregorian ordinals, [datetime - timedelta], [replace] and
    [strftime].  A [timedelta] is its total number of microseconds; a
    [tzinfo] is represented by the offset that [utcoffset()] reports. *)
Module Datetime.

Definition timedelta : Type := Z.

Definition timedelta_of (hours minutes seconds : Z) : timedelta :=
  ((hours * 60 + minutes) * 60 + seconds) * 1000000.

Record datetime : Type := mkDatetime
  { year : Z; month : Z; day : Z;
    hour : Z; minute : Z; second : Z; microsecond : Z;
    tzinfo : option timedelta }.

(** [pytz.utc] *)
Definition utc : option timedelta := Some 0.

Definition utcoffset (d : datetime) : option timedelta := tzinfo d.

(** [d.replace(tzinfo=tz)] *)
Definition replace_tzinfo (d : datetime) (tz : option timedelta) : datetime :=
  mkDatetime (year d) (month d) (day d)
             (hour d) (minute d) (second d) (microsecond d) tz.

Definition _MAXORDINAL : Z := 3652059.
Definition _DI400Y : Z := 146097.
Definition _DI100Y : Z := 36524.
Definition _DI4Y : Z := 1461.

Definition _DAYS_IN_MONTH : list Z :=
  [-1; 31; 28; 31; 30; 31; 30; 31; 31; 30; 31; 30; 31].
Definition _DAYS_BEFORE_MONTH : list Z :=
  [-1; 0; 31; 59; 90; 120; 151; 181; 212; 243; 273; 304; 334].

Definition _is_leap (y : Z) : bool :=
  (y mod 4 =? 0) && (negb (y mod 100 =? 0) || (y mod 400 =? 0)).

Definition _days_before_year (y : Z) : Z :=
  let p := y - 1 in p * 365 + p / 4 - p / 100 + p / 400.

Definition _days_before_month (y m : Z) : Z :=
  nth (Z.to_nat m) _DAYS_BEFORE_MONTH (-1)
  + (if (2 <? m) && _is_leap y then 1 else 0).

Definition _ymd2ord (y m d : Z) : Z :=
  _days_before_year y + _days_before_month y m + d.

(** The last step of [_ord2ymd]: month and day of the [n]-th day
    (counted from 0) of a year. *)
Definition _month_day (n : Z) (leapyear : bool) : Z * Z :=
  let m := Z.shiftr (n + 50) 5 in
  let preceding :=
    nth (Z.to_nat m) _DAYS_BEFORE_MONTH (-1)
    + (if (2 <? m) && leapyear then 1 else 0) in
  if n <? preceding then
    let m' := m - 1 in
    let preceding' :=
      preceding - (nth (Z.to_nat m') _DAYS_IN_MONTH (-1)
                   + (if (m' =? 2) && leapyear then 1 else 0)) in
    (m', n - preceding' + 1)
  else (m, n - preceding + 1).

Definition _ord2ymd (ordinal : Z) : Z * Z * Z :=
  let n := ordinal - 1 in
  let n400 := n / _DI400Y in
  let n := n mod _DI400Y in
  let n100 := n / _DI100Y in
  let n := n mod _DI100Y in
  let n4 := n / _DI4Y in
  let n := n mod _DI4Y in
  let n1 := n / 365 in
  let n := n mod 365 in
  let y := n400 * 400 + 1 + n100 * 100 + n4 * 4 + n1 in
  if (n1 =? 4) || (n100 =? 4) then (y - 1, 12, 31)
  else
    let leapyear := (n1 =? 3) && (negb (n4 =? 24) || (n100 =? 3)) in
    let '(m, d) := _month_day n leapyear in
    (y, m, d).

(** One row of the table that checks [_month_day] against
    [_DAYS_BEFORE_MONTH]. *)
Definition month_day_ok (leapyear : bool) (k : nat) : bool :=
  let n := Z.of_nat k in
  let '(m, d) := _month_day n leapyear in
  (1 <=? m) && (m <=? 12) && (1 <=? d) && (d <=? 31)
  && (nth (Z.to_nat m) _DAYS_BEFORE_MONTH (-1)
      + (if (2 <? m) && leapyear then 1 else 0) + d =? n + 1).

(** One row of the table that checks the day [_month_day] gives against
    the length of its month. *)
Definition month_day_fits (leapyear : bool) (k : nat) : bool :=
  let '(m, d) := _month_day (Z.of_nat k) leapyear in
  d <=? (if (m =? 2) && leapyear then 29
         else nth (Z.to_nat m) _DAYS_IN_MONTH (-1)).

Definition toordinal (d : datetime) : Z := _ymd2ord (year d) (month d) (day d).

(** The day count and time of day of [d], as one number of microseconds. *)
Definition to_microseconds (d : datetime) : Z :=
  (((toordinal d * 24 + hour d) * 60 + minute d) * 60 + second d) * 1000000
  + microsecond d.

Definition microseconds_per_day : Z := 86400 * 1000000.

(** [d + delta]: arithmetic on the fields, the [tzinfo] carried over,
    [OverflowError] outside years 1..9999. *)
Definition add (d : datetime) (delta : timedelta) : result datetime :=
  let total := to_microseconds d + delta in
  let days := total / microseconds_per_day in
  let rest := total mod microseconds_per_day in
  let seconds := rest / 1000000 in
  let us := rest mod 1000000 in
  let h := seconds / 3600 in
  let rem := seconds mod 3600 in
  if (0 <? days) && (days <=? _MAXORDINAL) then
    let '(y, m, dd) := _ord2ymd days in
    Return (mkDatetime y m dd h (rem / 60) (rem mod 60) us (tzinfo d))
  else Raise OverflowError.

(** [d - delta] *)
Definition sub (d : datetime) (delta : timedelta) : result datetime :=
  add d (- delta).

(** A non-negative number in decimal, zero-padded to [width] digits. *)
Definition zero_pad (width : nat) (z : Z) : string :=
  let digits := pretty z in
  String.app (string_of_list_ascii
                (repeat "0"%char (width - String.length digits)))
             digits.

(** [_days_in_month(year, month)] *)
Definition _days_in_month (y m : Z) : Z :=
  if (m =? 2) && _is_leap y then 29
  else nth (Z.to_nat m) _DAYS_IN_MONTH (-1).

(** What the constructor checks ([_check_date_fields],
    [_check_time_fields]): the fields a [datetime] object can hold. *)
Definition well_formed (d : datetime) : Prop :=
  1 <= year d <= 9999 /\ 1 <= month d <= 12
  /\ 1 <= day d <= _days_in_month (year d) (month d)
  /\ 0 <= hour d < 24 /\ 0 <= minute d < 60 /\ 0 <= second d < 60
  /\ 0 <= microsecond d < 1000000.

(** [d.strftime(format)], which hands the format to the platform.  What
    every platform agrees on is written out: ordinary characters are
    copied, [%m %d %H %M %S] are two digits, [%%] is a percent sign and
    [%Y] is the year in decimal when it has four digits.  At anything
    else after a [%] (a flag, a width, a modifier, another conversion,
    the end of the format, [%Y] of a year below 1000) the platform takes
    over: [other] is handed the format from the character after that
    [%] and gives the rest of the output, or raises where the platform
    refuses the directive. *)
Fixpoint strftime (other : string -> datetime -> result string)
         (format : string) (d : datetime) : result string :=
  match format with
  | EmptyString => Return EmptyString
  | String "%" directive =>
      match directive with
      | String c rest =>
          let then_rest (text : string) :=
            match strftime other rest d with
            | Return s => Return (String.app text s)
            | Raise e => Raise e
            end in
          match c with
          | "Y"%char =>
              if 1000 <=? year d then then_rest (pretty (year d))
              else other directive d
          | "m"%char => then_rest (zero_pad 2 (month d))
          | "d"%char => then_rest (zero_pad 2 (day d))
          | "H"%char => then_rest (zero_pad 2 (hour d))
          | "M"%char => then_rest (zero_pad 2 (minute d))
          | "S"%char => then_rest (zero_pad 2 (second d))
          | "%"%char => then_rest "%"
          | _ => other directive d
          end
      | EmptyString => other directive d
      end
  | String c rest =>
      match strftime other rest d with
      | Return s => Return (String c s)
      | Raise e => Raise e
      end
  end.


End Datetime.

(** ** [str.strip]

    Whitespace is what [str.isspace] accepts among the code points below
    256: TAB..CR, FS..US, space, NEL and NBSP. *)
Definition isspace (c : ascii) : bool :=
  let n := N_of_ascii c in
  (((9 <=? n) && (n <=? 13)) || ((28 <=? n) && (n <=? 32))
   || (n =? 133) || (n =? 160))%N.

Fixpoint lstrip (s : string) : string :=
  match s with
  | EmptyString => EmptyString
  | String c rest => if isspace c then lstrip rest else s
  end.

Fixpoint rstrip (s : string) : string :=
  match s with
  | EmptyString => EmptyString
  | String c rest =>
      match rstrip rest with
      | EmptyString => if isspace c then EmptyString else String c EmptyString
      | kept => String c kept
      end
  end.

Definition strip (s : string) : string := rstrip (lstrip s).

(** Every character of [s] is whitespace (true of the empty string). *)
Fixpoint all_space (s : string) : bool :=
  match s with
  | EmptyString => true
  | String c rest => isspace c && all_space rest
  end.

(** ** Truthiness *)

(** [bool(v)] for the values met here. *)
Definition truthy (v : pyvalue) : bool :=
  match v with
  | PyNone => false
  | PyBool b => b
  | PyInt z => negb (z =? 0)
  | PyFloat bits => negb (Z.land bits (Z.ones 63) =? 0)
  | PyStr s => negb (String.length s =? 0)%nat
  | PyList l => negb (length l =? 0)%nat
  | PyDict d => negb (size d =? 0)%nat
  | PyObject _ => true
  end.

(** ** Rotation detection *)

(** What [patched_is_new_file] reads: the attribute [_rotated_logfile]
    ([None] or the name of the rotated file being drained), the position
    of the open handle, [os.fstat] of the handle, and [os.stat] of the
    watched path, which raises [FileNotFoundError] when the path is gone. *)
Record pygtail : Type := mkPygtail
  { _rotated_logfile : option string;
    filehandle_tell : Z;
    fstat_st_size : Z;
    fstat_st_ino : Z;
    stat_filename_st_ino : result Z }.

(** [a or b]: [a] when it is truthy, otherwise [b]. *)
Definition py_or (a b : pyvalue) : pyvalue := if truthy a then a else b.

Definition patched_is_new_file (self : pygtail) : result pyvalue :=
  let size1 := filehandle_tell self in
  let size2 := fstat_st_size self in
  let inode1 := fstat_st_ino self in
  match stat_filename_st_ino self with
  | Raise e => Raise e
  | Return inode2 =>
      Return
        (py_or (py_or (match _rotated_logfile self with
                       | Some name => PyStr name
                       | None => PyNone
                       end)
                      (PyBool ((size1 =? size2) && negb (inode1 =? inode2))))
               (PyBool ((inode1 =? inode2) && (size2 <? size1))))
  end.

(** ** The libraries and the outside world

    [W] is everything outside the module that can change: the backend, the
    clock, whatever the hooks keep.  [json_loads] is [None] where
    [json.loads] raises; [bulk] is one call of [elasticsearch.helpers.bulk];
    [dateutil_parse] is [dateutil.parser.parse]; [utcnow] reads the clock;
    [strftime_other] is the platform's [strftime] from a directive that
    platforms differ on, to the end of the format. *)
Class Libraries (W : Type) : Type := mkLibraries
  { json_loads : string -> option pyvalue;
    bulk : list action -> W -> bulk_outcome * W;
    dateutil_parse : pyvalue -> W -> result Datetime.datetime;
    utcnow : W -> Datetime.datetime;
    strftime_other : string -> Datetime.datetime -> result string }.

(** A transform or index hook: called with a dict, it returns or raises,
    and may have changed the dict it was handed and the world. *)
Definition hook (W : Type) : Type :=
  gmap string pyvalue -> W -> result pyvalue * gmap string pyvalue * W.

Section Daemon.
Context {W : Type} `{!Libraries W}.

(** The module's globals [TO_SEND] and [LOG], the chunks handed to the
    backend so far (oldest first), and the world. *)
Record state : Type := mkState
  { TO_SEND : list action;
    LOG : list log_record;
    es_requests : list (list action);
    world : W }.

(** State and exceptions: what a statement has done persists when it
    raises. *)
Definition M (A : Type) : Type := state -> result A * state.

Definition ret {A : Type} (a : A) : M A := fun st => (Return a, st).

Definition bind {A B : Type} (c : M A) (k : A -> M B) : M B :=
  fun st =>
    match c st with
    | (Return a, st') => k a st'
    | (Raise e, st') => (Raise e, st')
    end.

Definition log (level : log_level) (format : string) (a : list log_arg)
  : M unit :=
  fun st =>
    (Return tt,
     mkState (TO_SEND st) (LOG st ++ [mkLog level format a])
             (es_requests st) (world st)).

Definition get_TO_SEND : M (list action) :=
  fun st => (Return (TO_SEND st), st).

Definition set_TO_SEND (l : list action) : M unit :=
  fun st => (Return tt, mkState l (LOG st) (es_requests st) (world st)).

Definition lift {A : Type} (r : result A) : M A := fun st => (r, st).

(** One call of a hook on the dict [d]; the dict as the hook left it is
    returned next to the hook's value. *)
Definition call (f : hook W) (d : gmap string pyvalue)
  : M (pyvalue * gmap string pyvalue) :=
  fun st =>
    match f d (world st) with
    | (Return v, d', w') =>
        (Return (v, d'),
         mkState (TO_SEND st) (LOG st) (es_requests st) w')
    | (Raise e, _, w') =>
        (Raise e, mkState (TO_SEND st) (LOG st) (es_requests st) w')
    end.

(** One call of [elasticsearch.helpers.bulk] on [chunk]. *)
Definition helpers_bulk (chunk : list action) : M (Z * list pyvalue) :=
  fun st =>
    let requests := es_requests st ++ [chunk] in
    match bulk chunk (world st) with
    | (BulkReturn n errors, w') =>
        (Return (n, errors), mkState (TO_SEND st) (LOG st) requests w')
    | (BulkRaise e, w') =>
        (Raise e, mkState (TO_SEND st) (LOG st) requests w')
    end.

(** [for x in l: body(x)] *)
Fixpoint for_each {A : Type} (l : list A) (body : A -> M unit) : M unit :=
  match l with
  | [] => ret tt
  | x :: rest => bind (body x) (fun _ => for_each rest body)
  end.

End Daemon.

Arguments state W : clear implicits.
Arguments M W A : clear implicits.

Declare Scope py_scope.
Delimit Scope py_scope with py.
Notation "x <- c ;; k" := (bind c (fun x => k))
  (at level 20, c at level 99, k at level 200, only parsing) : py_scope.
Notation "' p <- c ;; k" := (bind c (fun p => k))
  (at level 20, p pattern, c at level 99, k at level 200, only parsing) : py_scope.
Notation "c ;; k" := (bind c (fun _ => k))
  (at level 100, k at level 200, only parsing, right associativity) : py_scope.
#[local] Open Scope py_scope.

Section Pipeline.
Context {W : Type} `{!Libraries W}.

Definition process (line : option string)
           (transform_func index_func : hook W) : M W bool :=
  match line with
  | None => ret false
  | Some line =>
      let tmp := strip line in
      if (String.length tmp =? 0)%nat then ret false
      else
        match json_loads tmp with
        | None =>
            log WARNING "can't decode the line: %s as JSON" [ArgStr tmp] ;;
            ret false
        | Some (PyDict decoded) =>
            ' (index, decoded) <- call index_func decoded ;;
            ' (transformed, _) <- call transform_func decoded ;;
            match transformed with
            | PyNone => ret false
            | PyDict source =>
                to_send <- get_TO_SEND ;;
                set_TO_SEND (to_send ++ [mkAction "index" index "_doc" source]) ;;
                ret true
            | _ =>
                log WARNING
                    "the transformed function must return a dict (or None), got: %s"
                    [ArgType transformed] ;;
                ret false
            end
        | Some _ =>
            log WARNING "the decoded line: %s must be a JSON dict" [ArgStr tmp] ;;
            ret false
        end
  end.

(** [commit(es, force)]; the client [es] is the backend behind [bulk]. *)
Definition commit (force : bool) : M W bool :=
  to_send <- get_TO_SEND ;;
  if negb force && (length to_send <? 500)%nat then ret false
  else if (length to_send =? 0)%nat then ret false
  else
    log INFO "commiting %i line(s) to ES..." [ArgInt (Z.of_nat (length to_send))] ;;
    cs <- lift (chunks to_send 500) ;;
    for_each cs (fun chunk =>
      ' (success, errors) <- helpers_bulk chunk ;;
      if negb (success =? Z.of_nat (length chunk)) then
        log WARNING "can't post %i lines to ES"
            [ArgInt (Z.of_nat (length chunk) - success)] ;;
        log DEBUG "raw output: %s" [ArgValue (PyList errors)]
      else ret tt) ;;
    set_TO_SEND [] ;;
    ret true.

Definition no_transform : hook W :=
  fun dict_object w => (Return (PyDict dict_object), dict_object, w).

(** [d.strftime(format)] on this platform, as a Python value. *)
Definition format_time (d : Datetime.datetime) (format : string)
  : result pyvalue :=
  match Datetime.strftime strftime_other format d with
  | Return text => Return (PyStr text)
  | Raise e => Raise e
  end.

Definition default_index_func (index_const_value : string) : hook W :=
  fun dict_object w =>
    let ref_utc :=
      match dict_object !! "@timestamp" with
      | Some timestamp =>
          match dateutil_parse timestamp w with
          | Raise e => Raise e
          | Return ref =>
              match Datetime.utcoffset ref with
              | None => Raise TypeError
              | Some offset =>
                  Datetime.sub (Datetime.replace_tzinfo ref Datetime.utc) offset
              end
          end
      | None => Return (utcnow w)
      end in
    match ref_utc with
    | Raise e => (Raise e, dict_object, w)
    | Return ref_utc => (format_time ref_utc index_const_value, dict_object, w)
    end.

End Pipeline.

(** ** What a flush is expected to do

    The backend calls of one flush, seen from outside [commit]: the replies
    to the chunks submitted in turn, and the log records each reply
    calls for. *)
Section Flush.
Context {W : Type} `{!Libraries W}.

(** The replies to [cs], submitted one after the other from world [w];
    the first transport failure ends the run. *)
Fixpoint bulk_all (cs : list (list action)) (w : W)
  : result (list (Z * list pyvalue)) * W :=
  match cs with
  | [] => (Return [], w)
  | c :: rest =>
      match bulk c w with
      | (BulkReturn n errors, w') =>
          match bulk_all rest w' with
          | (Return rs, w'') => (Return ((n, errors) :: rs), w'')
          | (Raise e, w'') => (Raise e, w'')
          end
      | (BulkRaise e, w') => (Raise e, w')
      end
  end.

(** The backend replies to every chunk of [buffer]. *)
Definition backend_answers (buffer : list action) (w : W) : bool :=
  match chunks buffer 500 with
  | Return cs =>
      match bulk_all cs w with
      | (Return _, _) => true
      | (Raise _, _) => false
      end
  | Raise _ => false
  end.

(** The records logged for one chunk and its reply. *)
Definition report (c : list action) (reply : Z * list pyvalue)
  : list log_record :=
  if negb (reply.1 =? Z.of_nat (length c)) then
    [mkLog WARNING "can't post %i lines to ES"
           [ArgInt (Z.of_nat (length c) - reply.1)];
     mkLog DEBUG "raw output: %s" [ArgValue (PyList reply.2)]]
  else [].

Fixpoint reports (cs : list (list action)) (rs : list (Z * list pyvalue))
  : list log_record :=
  match cs, rs with
  | c :: cs', r :: rs' => report c r ++ reports cs' rs'
  | _, _ => []
  end.

(** Some WARNING record of [records] carries both the number of failed
    items and the raw failure detail. *)
Definition warns_with_detail (records : list log_record)
           (failed : Z) (errors : list pyvalue) : Prop :=
  exists r, In r records /\ levelname r = WARNING
            /\ In (ArgInt failed) (args r)
            /\ In (ArgValue (PyList errors)) (args r).

End Flush.

(** ** A reference instance of the libraries

    A small, executable stand-in for each library, on which the statements
    below can be run: a decoder for JSON without escapes, fractions and
    exponents; a parser for timestamps of the shape
    [YYYY-MM-DDTHH:MM:SS], optionally followed by [Z] or [+HH:MM] or
    [-HH:MM]; a backend that indexes a fixed number of items per chunk; a
    clock that stands still; a platform whose [strftime] knows a few
    directives beyond the portable ones. *)
Module Reference.

Definition dquote : ascii := "034"%char.

Definition is_digit (c : ascii) : bool :=
  let n := N_of_ascii c in ((48 <=? n) && (n <=? 57))%N.

Definition digit_value (c : ascii) : Z := Z.of_N (N_of_ascii c) - 48.

(** JSON whitespace: space, TAB, LF, CR. *)
Definition json_ws (c : ascii) : bool :=
  let n := N_of_ascii c in ((n =? 32) || (n =? 9) || (n =? 10) || (n =? 13))%N.

Fixpoint skip_ws (s : string) : string :=
  match s with
  | String c rest => if json_ws c then skip_ws rest else s
  | EmptyString => EmptyString
  end.

(** [expect word s]: what follows [word] at the head of [s]. *)
Fixpoint expect (word s : string) : option string :=
  match word, s with
  | EmptyString, _ => Some s
  | String a word', String b s' =>
      if Ascii.eqb a b then expect word' s' else None
  | String _ _, EmptyString => None
  end.

Fixpoint digits (acc : Z) (s : string) : Z * string :=
  match s with
  | String c rest =>
      if is_digit c then digits (acc * 10 + digit_value c) rest else (acc, s)
  | EmptyString => (acc, s)
  end.

(** An unsigned JSON integer: no leading zero unless it is [0]. *)
Definition natural (s : string) : option (Z * string) :=
  match s with
  | String "0" rest =>
      match rest with
      | String c _ => if is_digit c then None else Some (0, rest)
      | EmptyString => Some (0, rest)
      end
  | String c _ => if is_digit c then Some (digits 0 s) else None
  | EmptyString => None
  end.

(** The characters up to the closing quote; control characters and
    backslashes are refused. *)
Fixpoint string_body (s : string) : option (string * string) :=
  match s with
  | EmptyString => None
  | String c rest =>
      if Ascii.eqb c dquote then Some (EmptyString, rest)
      else if Ascii.eqb c "092"%char || (N_of_ascii c <? 32)%N then None
      else match string_body rest with
           | Some (body, rest') => Some (String c body, rest')
           | None => None
           end
  end.

Fixpoint value (fuel : nat) (s : string) {struct fuel}
  : option (pyvalue * string) :=
  match fuel with
  | O => None
  | S fuel =>
      match skip_ws s with
      | String "n" _ => r ← expect "null" (skip_ws s); Some (PyNone, r)
      | String "t" _ => r ← expect "true" (skip_ws s); Some (PyBool true, r)
      | String "f" _ => r ← expect "false" (skip_ws s); Some (PyBool false, r)
      | String "-" rest => ' (z, r) ← natural rest; Some (PyInt (- z), r)
      | String "[" rest =>
          match skip_ws rest with
          | String "]" r => Some (PyList [], r)
          | _ => ' (l, r) ← elements fuel rest; Some (PyList l, r)
          end
      | String "{" rest =>
          match skip_ws rest with
          | String "}" r => Some (PyDict ∅, r)
          | _ => ' (d, r) ← members fuel ∅ rest; Some (PyDict d, r)
          end
      | String c rest =>
          if Ascii.eqb c dquote
          then ' (body, r) ← string_body rest; Some (PyStr body, r)
          else ' (z, r) ← natural (skip_ws s); Some (PyInt z, r)
      | EmptyString => None
      end
  end
with elements (fuel : nat) (s : string) {struct fuel}
  : option (list pyvalue * string) :=
  match fuel with
  | O => None
  | S fuel =>
      ' (v, r) ← value fuel s;
      match skip_ws r with
      | String "," r' => ' (l, r'') ← elements fuel r'; Some (v :: l, r'')
      | String "]" r' => Some ([v], r')
      | _ => None
      end
  end
with members (fuel : nat) (d : gmap string pyvalue) (s : string) {struct fuel}
  : option (gmap string pyvalue * string) :=
  match fuel with
  | O => None
  | S fuel =>
      match skip_ws s with
      | String c r =>
          if Ascii.eqb c dquote then
            ' (key, r) ← string_body r;
            match skip_ws r with
            | String ":" r =>
                ' (v, r) ← value fuel r;
                match skip_ws r with
                | String "," r' => members fuel (<[key := v]> d) r'
                | String "}" r' => Some (<[key := v]> d, r')
                | _ => None
                end
            | _ => None
            end
          else None
      | EmptyString => None
      end
  end.

Definition decode (s : string) : option pyvalue :=
  match value (2 * String.length s + 2) s with
  | Some (v, rest) =>
      match skip_ws rest with
      | EmptyString => Some v
      | String _ _ => None
      end
  | None => None
  end.

(** Exactly [n] digits at the head of [s]. *)
Fixpoint fixed_digits (n : nat) (acc : Z) (s : string) : option (Z * string) :=
  match n with
  | O => Some (acc, s)
  | S n' =>
      match s with
      | String c rest =>
          if is_digit c then fixed_digits n' (acc * 10 + digit_value c) rest
          else None
      | EmptyString => None
      end
  end.

(** [Z], [+HH:MM], [-HH:MM] or nothing. *)
Definition zone (s : string) : option (option Datetime.timedelta) :=
  match s with
  | EmptyString => Some None
  | String "Z" EmptyString => Some (Some 0)
  | String sign rest =>
      if Ascii.eqb sign "+"%char || Ascii.eqb sign "-"%char then
        ' (h, r) ← fixed_digits 2 0 rest;
        r ← expect ":" r;
        ' (m, r) ← fixed_digits 2 0 r;
        match r with
        | EmptyString =>
            if (h <? 24) && (m <? 60) then
              let offset := Datetime.timedelta_of h m 0 in
              Some (Some (if Ascii.eqb sign "-"%char then - offset else offset))
            else None
        | String _ _ => None
        end
      else None
  end.

Definition days_in_month (y m : Z) : Z :=
  if (m =? 2) && Datetime._is_leap y then 29
  else nth (Z.to_nat m) Datetime._DAYS_IN_MONTH (-1).

Definition isoformat (s : string) : option Datetime.datetime :=
  ' (y, r) ← fixed_digits 4 0 s;
  r ← expect "-" r;
  ' (mo, r) ← fixed_digits 2 0 r;
  r ← expect "-" r;
  ' (d, r) ← fixed_digits 2 0 r;
  r ← expect "T" r;
  ' (h, r) ← fixed_digits 2 0 r;
  r ← expect ":" r;
  ' (mi, r) ← fixed_digits 2 0 r;
  r ← expect ":" r;
  ' (sec, r) ← fixed_digits 2 0 r;
  tz ← zone r;
  if (1 <=? y) && (1 <=? mo) && (mo <=? 12) && (1 <=? d)
     && (d <=? days_in_month y mo) && (h <? 24) && (mi <? 60) && (sec <? 60)
  then Some (Datetime.mkDatetime y mo d h mi sec 0 tz)
  else None.

(** The outside world: a clock reading and the number of items of each chunk
    that the backend indexes. *)
Record env : Type := mkEnv
  { clock : Datetime.datetime;
    capacity : nat }.

Definition parse (v : pyvalue) (w : env) : result Datetime.datetime :=
  match v with
  | PyStr s =>
      match isoformat s with
      | Some d => Return d
      | None => Raise ValueError
      end
  | _ => Raise TypeError
  end.

Definition index_chunk (chunk : list action) (w : env) : bulk_outcome * env :=
  let indexed := Nat.min (length chunk) (capacity w) in
  (BulkReturn (Z.of_nat indexed)
              (repeat (PyStr "rejected") (length chunk - indexed)),
   w).

(** The directives left to the platform.  This one knows three of them,
    with the meaning glibc gives them: the flag [-] drops the padding of
    [%d] and of [%m], and a year below 1000 is written without padding.
    Any other directive, and a [%] that ends the format, it refuses with
    [ValueError].  [fuel] bounds the directives still to come. *)
Fixpoint platform (fuel : nat) (directive : string) (d : Datetime.datetime)
  : result string :=
  match fuel with
  | O => Raise ValueError
  | S fuel =>
      let then_rest (text rest : string) :=
        match Datetime.strftime (platform fuel) rest d with
        | Return s => Return (String.app text s)
        | Raise e => Raise e
        end in
      match directive with
      | String "Y" rest => then_rest (pretty (Datetime.year d)) rest
      | String "-" (String "d" rest) => then_rest (pretty (Datetime.day d)) rest
      | String "-" (String "m" rest) => then_rest (pretty (Datetime.month d)) rest
      | _ => Raise ValueError
      end
  end.

Definition platform_strftime (directive : string) (d : Datetime.datetime)
  : result string :=
  platform (String.length directive) directive d.

#[global] Instance libraries : Libraries env :=
  {| json_loads := decode;
     bulk := index_chunk;
     dateutil_parse := parse;
     utcnow := clock;
     strftime_other := platform_strftime |}.

(** A backend behind a dead connection: every call raises. *)
Definition unreachable : Libraries env :=
  {| json_loads := decode;
     bulk := fun _ w => (BulkRaise TransportError, w);
     dateutil_parse := parse;
     utcnow := clock;
     strftime_other := platform_strftime |}.

Definition noon : Datetime.datetime :=
  Datetime.mkDatetime 2024 2 29 12 0 0 0 None.

Definition quoted (s : string) : string :=
  String dquote (String.app s (String dquote EmptyString)).

(** [{"@timestamp": "<text>"}] *)
Definition stamped (text : string) : string :=
  String.app "{" (String.app (quoted "@timestamp")
    (String.app ": " (String.app (quoted text) "}"))).

(** A line with an offset, a line without, and a line whose timestamp
    is a number. *)
Definition line_aware : string := stamped "2023-01-01T23:30:00+02:00".
Definition line_naive : string := stamped "2023-01-01T23:30:00".
Definition line_epoch : string :=
  String.app "{" (String.app (quoted "@timestamp") ": 1672608600}").


(** A transform hook that drops [@timestamp] and tags the document. *)
Definition retag : hook env :=
  fun d w =>
    (Return (PyDict (<["tag" := PyStr "seen"]> (delete "@timestamp" d))), d, w).

(** A state with [n] copies of one operation pending. *)
Definition pending (n : nat) (cap : nat) : state env :=
  mkState (repeat (mkAction "index" (PyStr "logs") "_doc" ∅) n) [] []
          (mkEnv noon cap).

End Reference.

(** ** More of Python's [str] *)

(** [s.split(sep)] for a one-character separator. *)
Fixpoint split (sep : ascii) (s : string) : list string :=
  match s with
  | EmptyString => [EmptyString]
  | String c rest =>
      if Ascii.eqb c sep then EmptyString :: split sep rest
      else match split sep rest with
           | piece :: pieces => String c piece :: pieces
           | [] => [String c EmptyString]
           end
  end.

(** [sep.join(pieces)] *)
Fixpoint join (sep : string) (pieces : list string) : string :=
  match pieces with
  | [] => EmptyString
  | [piece] => piece
  | piece :: rest => String.app piece (String.app sep (join sep rest))
  end.

(** [s.startswith(prefix)] *)
Fixpoint startswith (prefix s : string) : bool :=
  match prefix, s with
  | EmptyString, _ => true
  | String a prefix', String b s' => Ascii.eqb a b && startswith prefix' s'
  | String _ _, EmptyString => false
  end.

(** [s.endswith(suffix)] *)
Fixpoint endswith (suffix s : string) : bool :=
  String.eqb s suffix
  || match s with
     | EmptyString => false
     | String _ rest => endswith suffix rest
     end.

(** [c in s] for a single character [c]. *)
Fixpoint contains (c : ascii) (s : string) : bool :=
  match s with
  | EmptyString => false
  | String b rest => Ascii.eqb b c || contains c rest
  end.

(** ** Resolving the hooks

    [_get_func] and its two callers.  [importlib.import_module] and
    [getattr] are parameters; [sys.exit(1)] ends the process with
    status 1. *)

Inductive outcome (A : Type) : Type :=
| Done (a : A)
| Raised (e : exn)
| Exited (status : Z).
Arguments Done {A} a.
Arguments Raised {A} e.
Arguments Exited {A} status.

Section Resolve.
Context {W : Type} {Mod F : Type}.
Variable import_module : string -> result Mod.
Variable getattr : Mod -> string -> result F.

(** [func_path.split('.')[-1]] *)
Definition func_name_of (func_path : string) : string :=
  List.last (split "." func_path) EmptyString.

(** [".".join(func_path.split('.')[0:-1])] *)
Definition module_path_of (func_path : string) : string :=
  join "." (removelast (split "." func_path)).

Definition _get_func (func_label func_path : string) (st : state W)
  : outcome F * state W :=
  let func_name := func_name_of func_path in
  let module_path := module_path_of func_path in
  let complain :=
    mkState (TO_SEND st)
            (LOG st ++ [mkLog ERROR "%s must follow 'pkg.function_name'"
                              [ArgStr func_label]])
            (es_requests st) (world st) in
  if String.eqb module_path EmptyString then (Exited 1, complain)
  else if endswith ")" func_path then (Exited 1, complain)
  else
    match import_module module_path with
    | Raise e => (Raised e, st)
    | Return loaded =>
        match getattr loaded func_name with
        | Raise e => (Raised e, st)
        | Return f => (Done f, st)
        end
    end.

Definition get_transform_func (func_path : string) (st : state W)
  : outcome F * state W :=
  _get_func "transform-func" func_path st.

Definition get_index_func (func_path : string) (st : state W)
  : outcome F * state W :=
  _get_func "transform-func" func_path st.

End Resolve.

(** ** [setup.py]

    The list comprehension that turns the text of [requirements.txt]
    into [install_requires]. *)
Definition keep_requirement (line : string) : bool :=
  negb (String.length line =? 0)%nat
  && negb (startswith "--" line)
  && negb (startswith "-" line)
  && negb (contains ";" line).

Definition LF : ascii := "010"%char.

Definition install_requires (requirements_txt : string) : list string :=
  List.filter keep_requirement (split LF requirements_txt).

(** ** The run loop

    The [while RUNNING] loop of [main].  What the tail yields during one
    pass is given: the lines in order, the signals handled between two
    reads, how the pass ends ([StopIteration], or [FileNotFoundError]
    when the watched file is gone), and the signals handled during the
    sleep. *)

Inductive tail_event : Type :=
| Line (line : option string)
| Signal (signum : Z).

Inductive tail_end : Type :=
| StopIteration
| FileNotFound.

Record pass : Type := mkPass
  { events : list tail_event;
    stop : tail_end;
    during_sleep : list Z }.

Definition SLEEP_AFTER_EACH_ITERATION : Z := 3.

Section RunLoop.
Context {W : Type} `{!Libraries W}.

(** The pipeline's state, the global [RUNNING], the paths handed to
    [Path.touch] so far, and the seconds slept so far. *)
Record daemon : Type := mkDaemon
  { globals : state W;
    RUNNING : bool;
    touched : list string;
    slept : Z }.

Definition D (A : Type) : Type := daemon -> result A * daemon.

Definition dret {A : Type} (a : A) : D A := fun d => (Return a, d).

Definition dbind {A B : Type} (c : D A) (k : A -> D B) : D B :=
  fun d =>
    match c d with
    | (Return a, d') => k a d'
    | (Raise e, d') => (Raise e, d')
    end.

(** A step of the pipeline, run on the daemon's globals. *)
Definition on_globals {A : Type} (c : M W A) : D A :=
  fun d =>
    match c (globals d) with
    | (r, st') => (r, mkDaemon st' (RUNNING d) (touched d) (slept d))
    end.

Definition signal_handler (signum : Z) : D unit :=
  dbind (on_globals (log INFO "Signal: %i handled" [ArgInt signum]))
        (fun _ d => (Return tt, mkDaemon (globals d) false (touched d) (slept d))).

Definition touch (filepath : string) : D unit :=
  dbind (on_globals (log INFO "The file: %s does not exist => let's touch it"
                         [ArgStr filepath]))
        (fun _ d =>
           (Return tt,
            mkDaemon (globals d) (RUNNING d) (touched d ++ [filepath]) (slept d))).

(** [time.sleep(seconds)] *)
Definition sleep (seconds : Z) : D unit :=
  fun d =>
    (Return tt, mkDaemon (globals d) (RUNNING d) (touched d) (slept d + seconds)).

(** The inner [while True] loop: one drain of the tail. *)
Fixpoint drain (LOG_PATH : string) (transform_func index_func : hook W)
         (evs : list tail_event) (ending : tail_end) : D unit :=
  match evs with
  | [] =>
      match ending with
      | StopIteration => dret tt
      | FileNotFound => touch LOG_PATH
      end
  | Line line :: rest =>
      dbind (on_globals (process line transform_func index_func))
            (fun emitted =>
               dbind (if emitted
                      then dbind (on_globals (commit false)) (fun _ => dret tt)
                      else dret tt)
                     (fun _ => drain LOG_PATH transform_func index_func rest ending))
  | Signal signum :: rest =>
      dbind (signal_handler signum)
            (fun _ => drain LOG_PATH transform_func index_func rest ending)
  end.

Fixpoint handle_all (signums : list Z) : D unit :=
  match signums with
  | [] => dret tt
  | signum :: rest => dbind (signal_handler signum) (fun _ => handle_all rest)
  end.

(** One turn of the outer loop. *)
Definition iteration (LOG_PATH : string) (transform_func index_func : hook W)
           (p : pass) : D unit :=
  dbind (drain LOG_PATH transform_func index_func (events p) (stop p)) (fun _ =>
  dbind (on_globals (commit true)) (fun _ =>
  dbind (on_globals (log DEBUG "sleeping %i seconds..."
                         [ArgInt SLEEP_AFTER_EACH_ITERATION])) (fun _ =>
  dbind (handle_all (during_sleep p)) (fun _ =>
  sleep SLEEP_AFTER_EACH_ITERATION)))).

(** [while RUNNING: ...] followed by [LOG.info("exited")], over the passes
    given; when they run out with [RUNNING] still set, the loop is left
    where it stands. *)
Fixpoint main_loop (LOG_PATH : string) (transform_func index_func : hook W)
         (passes : list pass) : D unit :=
  fun d =>
    if RUNNING d then
      match passes with
      | [] => (Return tt, d)
      | p :: rest =>
          dbind (iteration LOG_PATH transform_func index_func p)
                (fun _ => main_loop LOG_PATH transform_func index_func rest) d
      end
    else on_globals (log INFO "exited" []) d.

End RunLoop.

Arguments daemon W : clear implicits.
Arguments D W A : clear implicits.

(** The events of a pass without its signals. *)
Definition lines_only (evs : list tail_event) : list tail_event :=
  List.filter (fun ev => match ev with Line _ => true | Signal _ => false end)
              evs.

(** Two pipeline states that differ at most in their log. *)
Definition same_but_log {W : Type} (st1 st2 : state W) : Prop :=
  TO_SEND st1 = TO_SEND st2
  /\ es_requests st1 = es_requests st2
  /\ world st1 = world st2.

(** ** More of the reference instance *)
Module Fixtures.

(** A module table with one module holding [no_transform]. *)
Definition import_module (name : string) : result unit :=
  if String.eqb name "jsonlog2elasticsearch" then Return tt
  else Raise (HookError "ModuleNotFoundError").

Definition getattr (loaded : unit) (name : string)
  : result (hook Reference.env) :=
  if String.eqb name "no_transform" then Return no_transform
  else Raise (HookError "AttributeError").

(** A daemon about to enter the loop, with [n] operations pending. *)
Definition fresh (n cap : nat) : daemon Reference.env :=
  mkDaemon (Reference.pending n cap) true [] 0.

(** [n] copies of the line [{}]. *)
Definition empty_objects (n : nat) : list tail_event :=
  repeat (Line (Some "{}")) n.

(** A burst of 601 lines, then nothing more to read. *)
Definition burst : pass := mkPass (empty_objects 601) StopIteration [].

(** Two lines with SIGTERM between them, and the file gone at the end. *)
Definition interrupted : pass :=
  mkPass [Line (Some "{}"); Signal 15; Line (Some "{}")] FileNotFound [].

(** A transform hook that declines every document, and one that answers
    with a list. *)
Definition decline : hook Reference.env :=
  fun d w => (Return PyNone, d, w).

Definition as_list : hook Reference.env :=
  fun d w => (Return (PyList []), d, w).

(** A document stamped with [text]. *)
Definition stamped_doc (text : string) : gmap string pyvalue :=
  <["@timestamp" := PyStr text]> ∅.

End Fixtures.


(** * Properties *)

(** ** Calendar arithmetic *)

Section Calendar.
Import Datetime.

(** [_month_day] agrees with the table of days before each month, on
    every day of a common year and of a leap year. *)
Lemma month_day_table leapyear :
  forallb (month_day_ok leapyear) (seq 0 365) = true.
Proof. destruct leapyear; vm_compute; reflexivity. Qed.

Lemma month_day_spec n leapyear m d :
  0 <= n < 365 ->
  _month_day n leapyear = (m, d) ->
  1 <= m <= 12 /\ 1 <= d <= 31
  /\ nth (Z.to_nat m) _DAYS_BEFORE_MONTH (-1)
     + (if (2 <? m) && leapyear then 1 else 0) + d = n + 1.
Proof.
  intros Hn Hmd.
  pose proof (month_day_table leapyear) as Htable.
  rewrite forallb_forall in Htable.
  specialize (Htable (Z.to_nat n)).
  unfold month_day_ok in Htable. rewrite Z2Nat.id, Hmd in Htable by lia.
  assert (Hin : In (Z.to_nat n) (seq 0 365)) by (apply in_seq; lia).
  specialize (Htable Hin).
  repeat (apply andb_prop in Htable as [Htable ?]). lia.
Qed.

(** The days before a year, by 400-year, 100-year and 4-year cycles. *)
Lemma days_before_year_split a b c e :
  0 <= b <= 3 -> 0 <= c <= 24 -> 0 <= e <= 3 ->
  _days_before_year (a * 400 + 1 + b * 100 + c * 4 + e) =
  a * 146097 + b * 36524 + c * 1461 + e * 365.
Proof.
  intros Hb Hc He. unfold _days_before_year. cbv zeta.
  Z.to_euclidean_division_equations. lia.
Qed.

Lemma is_leap_split a b c e :
  0 <= b <= 3 -> 0 <= c <= 24 -> 0 <= e <= 3 ->
  _is_leap (a * 400 + 1 + b * 100 + c * 4 + e) =
  (e =? 3) && (negb (c =? 24) || (b =? 3)).
Proof.
  intros Hb Hc He. unfold _is_leap.
  destruct (Z.eqb_spec e 3), (Z.eqb_spec c 24), (Z.eqb_spec b 3);
    repeat match goal with
           | |- context [?x mod ?k =? 0] => destruct (Z.eqb_spec (x mod k) 0)
           end;
    cbn; try reflexivity; exfalso;
    Z.to_euclidean_division_equations; lia.
Qed.

(** [_ord2ymd] inverts [_ymd2ord]: the date it gives for an ordinal has
    that ordinal. *)
Lemma ord2ymd_ymd2ord ordinal y m d :
  1 <= ordinal ->
  _ord2ymd ordinal = (y, m, d) ->
  _ymd2ord y m d = ordinal /\ 1 <= y /\ 1 <= m <= 12 /\ 1 <= d <= 31.
Proof.
  intros Hpos. unfold _ord2ymd, _DI400Y, _DI100Y, _DI4Y. cbv zeta.
  set (n0 := ordinal - 1).
  set (a := n0 / 146097). set (r1 := n0 mod 146097).
  set (b := r1 / 36524). set (r2 := r1 mod 36524).
  set (c := r2 / 1461). set (r3 := r2 mod 1461).
  set (e := r3 / 365). set (r := r3 mod 365).
  assert (Hn0 : 0 <= n0) by (unfold n0; lia).
  assert (Ha : n0 = 146097 * a + r1 /\ 0 <= r1 < 146097 /\ 0 <= a)
    by (unfold a, r1; Z.to_euclidean_division_equations; lia).
  assert (Hb : r1 = 36524 * b + r2 /\ 0 <= r2 < 36524 /\ 0 <= b <= 4)
    by (unfold b, r2; Z.to_euclidean_division_equations; lia).
  assert (Hc : r2 = 1461 * c + r3 /\ 0 <= r3 < 1461 /\ 0 <= c <= 24)
    by (unfold c, r3; Z.to_euclidean_division_equations; lia).
  assert (He : r3 = 365 * e + r /\ 0 <= r < 365 /\ 0 <= e <= 4)
    by (unfold e, r; Z.to_euclidean_division_equations; lia).
  clearbody a r1 b r2 c r3 e r.
  destruct (Z.eqb_spec e 4) as [He4|He4];
    [|destruct (Z.eqb_spec b 4) as [Hb4|Hb4]]; cbn [orb].
  - intros [= <- <- <-].
    assert (Hc23 : c <= 23) by lia.
    replace (a * 400 + 1 + b * 100 + c * 4 + e - 1)
      with (a * 400 + 1 + b * 100 + c * 4 + 3) by lia.
    unfold _ymd2ord, _days_before_month.
    rewrite days_before_year_split, is_leap_split by lia.
    replace (c =? 24) with false by (symmetry; apply Z.eqb_neq; lia).
    change (Z.to_nat 12) with 12%nat. cbn. subst n0. lia.
  - intros [= <- <- <-].
    replace (a * 400 + 1 + b * 100 + c * 4 + e - 1)
      with ((a + 1) * 400) by lia.
    unfold _ymd2ord, _days_before_month, _days_before_year, _is_leap. cbv zeta.
    replace ((a + 1) * 400 mod 4) with 0
      by (Z.to_euclidean_division_equations; lia).
    replace ((a + 1) * 400 mod 400) with 0
      by (Z.to_euclidean_division_equations; lia).
    change (Z.to_nat 12) with 12%nat. cbn. rewrite orb_true_r. subst n0.
    Z.to_euclidean_division_equations; lia.
  - destruct (_month_day r _) as [m' d'] eqn:Hmd. intros [= <- <- <-].
    apply month_day_spec in Hmd as (Hm & Hd & Hsum); [|lia].
    unfold _ymd2ord, _days_before_month.
    rewrite days_before_year_split, is_leap_split by lia.
    subst n0. lia.
Qed.

(** When [add] returns, the result denotes the instant of [d] moved by
    [delta], with every field in range. *)
Lemma add_exact d delta u :
  add d delta = Return u ->
  to_microseconds u = to_microseconds d + delta
  /\ tzinfo u = tzinfo d
  /\ 1 <= year u /\ 1 <= month u <= 12 /\ 1 <= day u <= 31
  /\ 0 <= hour u < 24 /\ 0 <= minute u < 60 /\ 0 <= second u < 60
  /\ 0 <= microsecond u < 1000000.
Proof.
  unfold add. cbv zeta.
  set (total := to_microseconds d + delta).
  destruct (_ && _) eqn:Hrange; [|done].
  apply andb_prop in Hrange as [Hlo Hhi].
  apply Z.ltb_lt in Hlo. apply Z.leb_le in Hhi.
  destruct (_ord2ymd _) as [[y m] dd] eqn:Hymd.
  apply ord2ymd_ymd2ord in Hymd as (Hord & Hy & Hm & Hd); [|lia].
  intros [= <-]. unfold to_microseconds, toordinal.
  cbn [year month day hour minute second microsecond tzinfo].
  rewrite Hord. unfold microseconds_per_day in *.
  repeat split; try lia; Z.to_euclidean_division_equations; lia.
Qed.

(** Subtracting a [timedelta] moves the instant by exactly that much and
    keeps the [tzinfo]. *)
Lemma sub_exact d delta u :
  sub d delta = Return u ->
  to_microseconds u = to_microseconds d - delta /\ tzinfo u = tzinfo d.
Proof.
  unfold sub. intros Hadd. apply add_exact in Hadd as (Hus & Htz & _).
  split; [lia|done].
Qed.

(** The day [_month_day] gives fits its month. *)
Lemma month_day_fits_table leapyear :
  forallb (month_day_fits leapyear) (seq 0 365) = true.
Proof. destruct leapyear; vm_compute; reflexivity. Qed.

Lemma month_day_in_month n leapyear m d :
  0 <= n < 365 ->
  _month_day n leapyear = (m, d) ->
  d <= (if (m =? 2) && leapyear then 29
        else nth (Z.to_nat m) _DAYS_IN_MONTH (-1)).
Proof.
  intros Hn Hmd.
  pose proof (month_day_fits_table leapyear) as Htable.
  rewrite forallb_forall in Htable.
  specialize (Htable (Z.to_nat n)).
  unfold month_day_fits in Htable. rewrite Z2Nat.id, Hmd in Htable by lia.
  assert (Hin : In (Z.to_nat n) (seq 0 365)) by (apply in_seq; lia).
  specialize (Htable Hin). lia.
Qed.

(** The date [_ord2ymd] gives is one of the calendar: the day is within
    its month. *)
Lemma ord2ymd_day_fits ordinal y m d :
  1 <= ordinal ->
  _ord2ymd ordinal = (y, m, d) ->
  d <= _days_in_month y m.
Proof.
  intros Hpos. unfold _ord2ymd, _DI400Y, _DI100Y, _DI4Y. cbv zeta.
  set (n0 := ordinal - 1).
  set (a := n0 / 146097). set (r1 := n0 mod 146097).
  set (b := r1 / 36524). set (r2 := r1 mod 36524).
  set (c := r2 / 1461). set (r3 := r2 mod 1461).
  set (e := r3 / 365). set (r := r3 mod 365).
  assert (Hn0 : 0 <= n0) by (unfold n0; lia).
  assert (Ha : n0 = 146097 * a + r1 /\ 0 <= r1 < 146097 /\ 0 <= a)
    by (unfold a, r1; Z.to_euclidean_division_equations; lia).
  assert (Hb : r1 = 36524 * b + r2 /\ 0 <= r2 < 36524 /\ 0 <= b <= 4)
    by (unfold b, r2; Z.to_euclidean_division_equations; lia).
  assert (Hc : r2 = 1461 * c + r3 /\ 0 <= r3 < 1461 /\ 0 <= c <= 24)
    by (unfold c, r3; Z.to_euclidean_division_equations; lia).
  assert (He : r3 = 365 * e + r /\ 0 <= r < 365 /\ 0 <= e <= 4)
    by (unfold e, r; Z.to_euclidean_division_equations; lia).
  clearbody a r1 b r2 c r3 e r.
  destruct (Z.eqb_spec e 4) as [He4|He4];
    [|destruct (Z.eqb_spec b 4) as [Hb4|Hb4]]; cbn [orb].
  - intros [= <- <- <-]. unfold _days_in_month.
    change (12 =? 2) with false. vm_compute. discriminate.
  - intros [= <- <- <-]. unfold _days_in_month.
    change (12 =? 2) with false. vm_compute. discriminate.
  - destruct (_month_day r _) as [m' d'] eqn:Hmd. intros [= <- <- <-].
    apply month_day_in_month in Hmd; [|lia].
    unfold _days_in_month. by rewrite is_leap_split by lia.
Qed.

Lemma days_before_month_nonneg y m :
  1 <= m <= 12 -> 0 <= _days_before_month y m.
Proof.
  intros Hm. unfold _days_before_month.
  assert (Hcases : m = 1 \/ m = 2 \/ m = 3 \/ m = 4 \/ m = 5 \/ m = 6 \/ m = 7
                   \/ m = 8 \/ m = 9 \/ m = 10 \/ m = 11 \/ m = 12) by lia.
  clear Hm.
  repeat (destruct Hcases as [->|Hcases]); try subst m;
    destruct (_is_leap y); simpl; lia.
Qed.

Lemma days_before_year_bound y :
  _days_before_year y < _MAXORDINAL -> y <= 9999.
Proof.
  unfold _days_before_year, _MAXORDINAL. cbv zeta. intros Hlt.
  Z.to_euclidean_division_equations. lia.
Qed.

(** The years up to an ordinal within [_MAXORDINAL] have four digits at
    most. *)
Lemma ymd2ord_year_bound y m d :
  1 <= m <= 12 -> 1 <= d ->
  _ymd2ord y m d <= _MAXORDINAL -> y <= 9999.
Proof.
  intros Hm Hd Hord. apply days_before_year_bound.
  pose proof (days_before_month_nonneg y m Hm).
  unfold _ymd2ord in Hord. lia.
Qed.

(** What [add] returns is a [datetime] the constructor accepts. *)
Lemma add_well_formed d delta u :
  add d delta = Return u -> well_formed u.
Proof.
  intros Hadd.
  pose proof (add_exact _ _ _ Hadd)
    as (_ & _ & Hy & Hm & Hd & Hh & Hmi & Hs & Hus).
  assert (Hdate : day u <= _days_in_month (year u) (month u)
                  /\ year u <= 9999).
  { clear Hy Hm Hd Hh Hmi Hs Hus. revert Hadd. unfold add. cbv zeta.
    destruct (_ && _) eqn:Hrange; [|done].
    apply andb_prop in Hrange as [Hlo Hhi].
    apply Z.ltb_lt in Hlo. apply Z.leb_le in Hhi.
    destruct (_ord2ymd _) as [[y m] dd] eqn:Hymd.
    intros [= <-]. cbn [year month day]. split.
    - eapply ord2ymd_day_fits; [|exact Hymd]. lia.
    - apply ord2ymd_ymd2ord in Hymd as (Hord & Hy & Hm & Hd); [|lia].
      eapply ymd2ord_year_bound; [exact Hm| |rewrite Hord; exact Hhi]. lia. }
  unfold well_formed. lia.
Qed.

(** A year adds its 365 or 366 days to the count. *)
Lemma days_before_year_succ y :
  _days_before_year (y + 1) =
  _days_before_year y + 365 + (if _is_leap y then 1 else 0).
Proof.
  unfold _days_before_year, _is_leap. cbv zeta.
  replace (y + 1 - 1) with y by lia.
  destruct (Z.eqb_spec (y mod 4) 0), (Z.eqb_spec (y mod 100) 0),
    (Z.eqb_spec (y mod 400) 0); cbn;
    Z.to_euclidean_division_equations; lia.
Qed.

Lemma days_before_year_mono y1 y2 :
  y1 < y2 ->
  _days_before_year y1 + 365 + (if _is_leap y1 then 1 else 0)
  <= _days_before_year y2.
Proof.
  intros Hlt. rewrite <- days_before_year_succ.
  unfold _days_before_year. cbv zeta.
  Z.to_euclidean_division_equations; lia.
Qed.

(** The day of the year of a calendar date: between 1 and the length of
    the year. *)
Lemma day_of_year_bounds y m d :
  1 <= m <= 12 -> 1 <= d <= _days_in_month y m ->
  1 <= _days_before_month y m + d <= 365 + (if _is_leap y then 1 else 0).
Proof.
  intros Hm. unfold _days_before_month, _days_in_month.
  assert (Hcases : m = 1 \/ m = 2 \/ m = 3 \/ m = 4 \/ m = 5 \/ m = 6 \/ m = 7
                   \/ m = 8 \/ m = 9 \/ m = 10 \/ m = 11 \/ m = 12) by lia.
  repeat (destruct Hcases as [->|Hcases]); try subst m;
    destruct (_is_leap y); simpl; lia.
Qed.

(** Within a year, the day of the year tells month and day. *)
Lemma day_of_year_inj y m1 d1 m2 d2 :
  1 <= m1 <= 12 -> 1 <= d1 <= _days_in_month y m1 ->
  1 <= m2 <= 12 -> 1 <= d2 <= _days_in_month y m2 ->
  _days_before_month y m1 + d1 = _days_before_month y m2 + d2 ->
  m1 = m2 /\ d1 = d2.
Proof.
  intros Hm1 Hd1 Hm2 Hd2. revert Hd1 Hd2.
  unfold _days_before_month, _days_in_month.
  assert (Hc1 : m1 = 1 \/ m1 = 2 \/ m1 = 3 \/ m1 = 4 \/ m1 = 5 \/ m1 = 6
                \/ m1 = 7 \/ m1 = 8 \/ m1 = 9 \/ m1 = 10 \/ m1 = 11
                \/ m1 = 12) by lia.
  assert (Hc2 : m2 = 1 \/ m2 = 2 \/ m2 = 3 \/ m2 = 4 \/ m2 = 5 \/ m2 = 6
                \/ m2 = 7 \/ m2 = 8 \/ m2 = 9 \/ m2 = 10 \/ m2 = 11
                \/ m2 = 12) by lia.
  clear Hm1 Hm2.
  destruct (_is_leap y);
    repeat (destruct Hc1 as [->|Hc1]); try subst m1;
    repeat (destruct Hc2 as [->|Hc2]); try subst m2;
    simpl; lia.
Qed.

(** Two calendar dates with the same ordinal are the same date. *)
Lemma ymd2ord_inj y1 m1 d1 y2 m2 d2 :
  1 <= m1 <= 12 -> 1 <= d1 <= _days_in_month y1 m1 ->
  1 <= m2 <= 12 -> 1 <= d2 <= _days_in_month y2 m2 ->
  _ymd2ord y1 m1 d1 = _ymd2ord y2 m2 d2 ->
  y1 = y2 /\ m1 = m2 /\ d1 = d2.
Proof.
  intros Hm1 Hd1 Hm2 Hd2. unfold _ymd2ord. intros Hord.
  pose proof (day_of_year_bounds y1 m1 d1 Hm1 Hd1) as Hb1.
  pose proof (day_of_year_bounds y2 m2 d2 Hm2 Hd2) as Hb2.
  assert (Hy : y1 = y2).
  { destruct (Z.lt_trichotomy y1 y2) as [Hlt|[Heq|Hgt]]; [|done|].
    - pose proof (days_before_year_mono y1 y2 Hlt). lia.
    - pose proof (days_before_year_mono y2 y1 ltac:(lia)). lia. }
  subst y2. split; [done|].
  apply (day_of_year_inj y1); try done. lia.
Qed.

(** A [datetime] is told by the instant it denotes and its [tzinfo]. *)
Lemma instant_unique d1 d2 :
  well_formed d1 -> well_formed d2 ->
  to_microseconds d1 = to_microseconds d2 ->
  tzinfo d1 = tzinfo d2 ->
  d1 = d2.
Proof.
  intros (Hy1 & Hm1 & Hd1 & Hh1 & Hmi1 & Hs1 & Hu1)
         (Hy2 & Hm2 & Hd2 & Hh2 & Hmi2 & Hs2 & Hu2).
  unfold to_microseconds, toordinal. intros Heq Htz.
  assert (Hsame : _ymd2ord (year d1) (month d1) (day d1)
                  = _ymd2ord (year d2) (month d2) (day d2)
                  /\ hour d1 = hour d2 /\ minute d1 = minute d2
                  /\ second d1 = second d2
                  /\ microsecond d1 = microsecond d2) by lia.
  destruct Hsame as (Hord & ? & ? & ? & ?).
  apply ymd2ord_inj in Hord as (? & ? & ?); try done.
  destruct d1, d2. cbn in *. congruence.
Qed.

End Calendar.

(** ** [strftime] *)





(** ** [chunks] *)

Section Chunks.
Context {A : Type}.
Implicit Types (l : list A) (n m k : nat).

Lemma chunks_unfold l n :
  (0 < n)%nat ->
  chunks l n =
    Return (map (fun k => take n (drop (k * n) l))
                (seq 0 ((length l + n - 1) / n))).
Proof.
  intros Hn. unfold chunks, range0.
  destruct n as [|n']; [lia|].
  rewrite map_map. f_equal. apply map_ext. intros k. unfold slice.
  f_equal. lia.
Qed.

Lemma concat_pieces l n m :
  concat (map (fun k => take n (drop (k * n) l)) (seq 0 m)) = take (m * n) l.
Proof.
  induction m as [|m IH].
  - reflexivity.
  - rewrite seq_S, map_app, concat_app, IH. simpl.
    rewrite app_nil_r, take_take_drop. f_equal. lia.
Qed.

(** [(a + n - 1) / n] is the ceiling of [a / n]. *)
Lemma ceil_bounds a n :
  (0 < n)%nat ->
  (a <= (a + n - 1) / n * n
   /\ ((a + n - 1) / n - 1) * n < a + (if a is O then 1 else 0))%nat.
Proof.
  intros Hn.
  pose proof (Nat.div_mod_eq (a + n - 1) n) as E.
  pose proof (Nat.mod_upper_bound (a + n - 1) n ltac:(lia)) as B.
  destruct a; split; nia.
Qed.

(** The chunks are consecutive pieces of [l]: glued back they give [l]. *)
Lemma chunks_concat l n cs : chunks l n = Return cs -> concat cs = l.
Proof.
  destruct (decide (n = 0%nat)) as [->|Hn]; [discriminate|].
  rewrite chunks_unfold by lia. intros [= <-].
  rewrite concat_pieces. apply take_ge.
  pose proof (ceil_bounds (length l) n ltac:(lia)). lia.
Qed.

Lemma chunks_length l n cs :
  chunks l n = Return cs -> length cs = ((length l + n - 1) / n)%nat.
Proof.
  destruct (decide (n = 0%nat)) as [->|Hn]; [discriminate|].
  rewrite chunks_unfold by lia. intros [= <-].
  by rewrite length_map, length_seq.
Qed.

(** No chunk is empty and none is longer than [n]. *)
Lemma chunks_sizes l n cs :
  chunks l n = Return cs ->
  Forall (fun c => (1 <= length c <= n)%nat) cs.
Proof.
  destruct (decide (n = 0%nat)) as [->|Hn]; [discriminate|].
  rewrite chunks_unfold by lia. intros [= <-].
  apply List.Forall_forall. intros c Hc.
  apply in_map_iff in Hc as (k & <- & Hk). apply in_seq in Hk.
  rewrite length_take, length_drop.
  pose proof (ceil_bounds (length l) n ltac:(lia)) as [_ Hlt].
  destruct (length l) eqn:E.
  - rewrite Nat.div_small in Hk; lia.
  - nia.
Qed.

Lemma chunks_total l n : (0 < n)%nat -> exists cs, chunks l n = Return cs.
Proof. intros Hn. rewrite chunks_unfold by done. eauto. Qed.

(** A non-empty list of at most [n] elements is one chunk. *)
Lemma chunks_single l n :
  (1 <= length l <= n)%nat -> chunks l n = Return [l].
Proof.
  intros Hl. rewrite chunks_unfold by lia.
  replace ((length l + n - 1) / n)%nat with 1%nat.
  - cbn [seq map]. rewrite Nat.mul_0_l, drop_0, take_ge by lia. reflexivity.
  - apply Nat.div_unique with (r := (length l - 1)%nat); lia.
Qed.

End Chunks.

(** ** [commit] *)

Section CommitProperties.
Context {W : Type} `{!Libraries W}.
Implicit Types (st : state W) (cs : list (list action))
           (rs : list (Z * list pyvalue)) (w : W).

(** The body of the [for] loop of [commit]. *)
Local Abbreviation post_chunk :=
  (fun chunk : list action =>
     bind (helpers_bulk chunk) (fun '(success, errors) =>
       if negb (success =? Z.of_nat (length chunk)) then
         bind (log WARNING "can't post %i lines to ES"
                   [ArgInt (Z.of_nat (length chunk) - success)])
              (fun _ => log DEBUG "raw output: %s" [ArgValue (PyList errors)])
       else ret tt)).

Lemma commit_unfold force st :
  commit force st =
    if negb force && (length (TO_SEND st) <? 500)%nat then (Return false, st)
    else if (length (TO_SEND st) =? 0)%nat then (Return false, st)
    else
      let st1 :=
        mkState (TO_SEND st)
                (LOG st ++ [mkLog INFO "commiting %i line(s) to ES..."
                                  [ArgInt (Z.of_nat (length (TO_SEND st)))]])
                (es_requests st) (world st) in
      match chunks (TO_SEND st) 500 with
      | Return cs =>
          match for_each cs post_chunk st1 with
          | (Return _, st2) =>
              (Return true,
               mkState [] (LOG st2) (es_requests st2) (world st2))
          | (Raise e, st2) => (Raise e, st2)
          end
      | Raise e => (Raise e, st1)
      end.
Proof.
  unfold commit, bind, get_TO_SEND, ret, lift, log, set_TO_SEND.
  destruct (negb force && _); [done|].
  destruct (_ =? _)%nat; [done|].
  destruct (chunks _ _); [|done].
  by destruct (for_each _ _ _) as [[] ?].
Qed.

(** While the backend replies, the loop submits every chunk in turn,
    logs what each reply calls for, and leaves the buffer alone. *)
Lemma flush_loop cs : forall st rs w,
  bulk_all cs (world st) = (Return rs, w) ->
  for_each cs post_chunk st =
    (Return tt,
     mkState (TO_SEND st) (LOG st ++ reports cs rs) (es_requests st ++ cs) w).
Proof.
  induction cs as [|c cs IH]; intros st rs w Hall; simpl in *.
  - injection Hall as <- <-. unfold ret. rewrite !app_nil_r. by destruct st.
  - unfold bind at 1 2. unfold helpers_bulk.
    destruct (bulk c (world st)) as [[n errors|e] w1]; [|done].
    destruct (bulk_all cs w1) as [[rs1|e] w2] eqn:Hrest; [|done].
    injection Hall as <- <-.
    unfold report. cbn [fst snd].
    destruct (negb (n =? Z.of_nat (length c))).
    + unfold bind, log. cbn [TO_SEND LOG es_requests world].
      erewrite IH by (cbn [world]; exact Hrest).
      cbn [TO_SEND LOG es_requests world].
      by rewrite <- !app_assoc.
    + unfold ret. erewrite IH by (cbn [world]; exact Hrest).
      cbn [TO_SEND LOG es_requests world].
      by rewrite <- !app_assoc.
Qed.

(** A transport failure escapes from the loop with the buffer as it was. *)
Lemma flush_loop_raise cs : forall st e w,
  bulk_all cs (world st) = (Raise e, w) ->
  exists st', for_each cs post_chunk st = (Raise e, st')
              /\ TO_SEND st' = TO_SEND st /\ world st' = w.
Proof.
  induction cs as [|c cs IH]; intros st e w Hall; simpl in *; [done|].
  unfold bind at 1 2. unfold helpers_bulk.
  destruct (bulk c (world st)) as [[n errors|e1] w1].
  - destruct (bulk_all cs w1) as [[rs1|e2] w2] eqn:Hrest; [done|].
    injection Hall as <- <-.
    destruct (negb (n =? Z.of_nat (length c))).
    + unfold bind, log. cbn [TO_SEND LOG es_requests world].
      edestruct IH as (st' & -> & ? & ?); [cbn [world]; exact Hrest|].
      eauto.
    + unfold ret.
      edestruct IH as (st' & -> & ? & ?); [cbn [world]; exact Hrest|].
      eauto.
  - injection Hall as <- <-. eauto.
Qed.

(** What a commit that decides to flush does while the backend replies. *)
Lemma commit_flush force st cs rs w :
  TO_SEND st <> [] ->
  force = true \/ (500 <= length (TO_SEND st))%nat ->
  chunks (TO_SEND st) 500 = Return cs ->
  bulk_all cs (world st) = (Return rs, w) ->
  commit force st =
    (Return true,
     mkState []
             (LOG st ++ mkLog INFO "commiting %i line(s) to ES..."
                              [ArgInt (Z.of_nat (length (TO_SEND st)))]
                     :: reports cs rs)
             (es_requests st ++ cs) w).
Proof.
  intros Hne Hgo Hcs Hall. rewrite commit_unfold.
  replace (negb force && (length (TO_SEND st) <? 500)%nat) with false; last first.
  { destruct Hgo as [->|Hlen]; [done|].
    symmetry. apply andb_false_iff. right. apply Nat.ltb_ge. lia. }
  replace (length (TO_SEND st) =? 0)%nat with false; last first.
  { symmetry. apply Nat.eqb_neq. destruct (TO_SEND st); simpl; [done|lia]. }
  cbv zeta. rewrite Hcs.
  erewrite flush_loop by (cbn [world]; exact Hall).
  cbn [TO_SEND LOG es_requests world].
  by rewrite <- app_assoc.
Qed.

Lemma backend_answers_inv buffer w :
  backend_answers buffer w = true ->
  exists cs rs w', chunks buffer 500 = Return cs
                   /\ bulk_all cs w = (Return rs, w').
Proof.
  unfold backend_answers. destruct (chunks buffer 500) as [cs|]; [|done].
  destruct (bulk_all cs w) as [[rs|] w'] eqn:Hall; [|done].
  intros _. by exists cs, rs, w'.
Qed.

Lemma map_length_pieces (l : list action) n m :
  map length (map (fun k => take n (drop (k * n) l)) (seq 0 m)) =
  map (fun k => Nat.min n (length l - k * n)) (seq 0 m).
Proof.
  rewrite map_map. apply map_ext. intros k.
  by rewrite length_take, length_drop.
Qed.

End CommitProperties.

Section CommitClaims.
Context {W : Type} `{!Libraries W}.
Implicit Types (st : state W).

(** C1.  A forced commit on a buffer of [n >= 1] operations, with a backend
    that replies to every call, hands the operations to the backend in
    their order as [ceil(n/500)] consecutive bulk calls of between 1 and
    500 operations each, empties the buffer and returns [True].  The
    number of calls [k] is given both as [(n + 499) / 500] and by
    [500 * (k - 1) < n <= 500 * k]; for [n = 1001] the calls have sizes
    500, 500 and 1. *)
Theorem commit_force_flushes st :
  TO_SEND st <> [] ->
  backend_answers (TO_SEND st) (world st) = true ->
  exists st' cs,
    commit true st = (Return true, st')
    /\ TO_SEND st' = []
    /\ es_requests st' = es_requests st ++ cs
    /\ concat cs = TO_SEND st
    /\ Forall (fun c => (1 <= length c <= 500)%nat) cs
    /\ length cs = ((length (TO_SEND st) + 499) / 500)%nat
    /\ (500 * (length cs - 1) < length (TO_SEND st) <= 500 * length cs)%nat
    /\ (length (TO_SEND st) = 1001%nat -> map length cs = [500; 500; 1]%nat).
Proof.
  intros Hne Hans.
  destruct (backend_answers_inv _ _ Hans) as (cs & rs & w' & Hcs & Hall).
  eexists _, cs. split; [by eapply commit_flush; eauto|].
  cbn [TO_SEND es_requests].
  pose proof (chunks_length _ _ _ Hcs) as Hlen.
  replace (length (TO_SEND st) + 500 - 1)%nat
    with (length (TO_SEND st) + 499)%nat in Hlen by lia.
  repeat split; eauto using chunks_concat, chunks_sizes.
  - assert (length (TO_SEND st) <> 0)%nat
      by (destruct (TO_SEND st); simpl; [done|lia]).
    pose proof (ceil_bounds (length (TO_SEND st)) 500 ltac:(lia)) as [_ Hlt].
    replace (length (TO_SEND st) + 500 - 1)%nat
      with (length (TO_SEND st) + 499)%nat in Hlt by lia.
    rewrite Hlen. destruct (length (TO_SEND st)); lia.
  - pose proof (ceil_bounds (length (TO_SEND st)) 500 ltac:(lia)) as [Hle _].
    replace (length (TO_SEND st) + 500 - 1)%nat
      with (length (TO_SEND st) + 499)%nat in Hle by lia.
    rewrite Hlen. lia.
  - intros H1001. rewrite chunks_unfold in Hcs by lia.
    injection Hcs as <-. rewrite map_length_pieces, H1001. reflexivity.
Qed.

(** C2.  An unforced commit on fewer than 500 pending operations returns
    [False] and changes nothing: no backend call, the buffer as it was.
    On exactly 500, with a backend that replies, it makes one bulk call
    carrying the whole buffer, empties the buffer and returns [True].  On
    an empty buffer commit returns [False] and changes nothing, forced or
    not. *)
Theorem commit_threshold st :
  ((length (TO_SEND st) < 500)%nat -> commit false st = (Return false, st))
  /\ (length (TO_SEND st) = 500%nat ->
      backend_answers (TO_SEND st) (world st) = true ->
      exists st',
        commit false st = (Return true, st')
        /\ es_requests st' = es_requests st ++ [TO_SEND st]
        /\ TO_SEND st' = [])
  /\ (TO_SEND st = [] -> forall force, commit force st = (Return false, st)).
Proof.
  split; [|split].
  - intros Hlt. rewrite commit_unfold.
    apply Nat.ltb_lt in Hlt. by rewrite Hlt.
  - intros H500 Hans.
    destruct (backend_answers_inv _ _ Hans) as (cs & rs & w' & Hcs & Hall).
    rewrite chunks_single in Hcs by lia. injection Hcs as <-.
    eexists. split.
    + eapply commit_flush; [| right; lia | apply chunks_single; lia | exact Hall].
      intros Hnil. rewrite Hnil in H500. discriminate.
    + done.
  - intros Hnil force. rewrite commit_unfold, Hnil. cbn [length].
    by destruct force.
Qed.

(** C4 (amended).  A commit that flushes never raises because the backend
    rejected items.  Whatever success counts the backend reports, commit
    submits every chunk, empties the buffer and returns [True]; the log
    gains the INFO record and then, chunk by chunk, what [report] lists.
    For each chunk whose success count is below its size that is a WARNING
    record carrying the number of failed items, immediately followed by a
    DEBUG record carrying the raw failure detail. *)
Theorem commit_partial_failure force st cs rs w :
  TO_SEND st <> [] ->
  force = true \/ (500 <= length (TO_SEND st))%nat ->
  chunks (TO_SEND st) 500 = Return cs ->
  bulk_all cs (world st) = (Return rs, w) ->
  exists st',
    commit force st = (Return true, st')
    /\ TO_SEND st' = []
    /\ es_requests st' = es_requests st ++ cs
    /\ LOG st' = LOG st ++ mkLog INFO "commiting %i line(s) to ES..."
                                 [ArgInt (Z.of_nat (length (TO_SEND st)))]
                        :: reports cs rs
    /\ forall i c n errors,
         cs !! i = Some c -> rs !! i = Some (n, errors) ->
         n < Z.of_nat (length c) ->
         exists before after,
           reports cs rs =
             before
             ++ [mkLog WARNING "can't post %i lines to ES"
                       [ArgInt (Z.of_nat (length c) - n)];
                 mkLog DEBUG "raw output: %s" [ArgValue (PyList errors)]]
             ++ after.
Proof.
  intros Hne Hgo Hcs Hall. eexists. split; [by eapply commit_flush|].
  cbn [TO_SEND es_requests LOG]. repeat split.
  clear. revert rs. induction cs as [|c0 cs IH]; intros rs i c n errors Hc Hr Hlt.
  - by rewrite lookup_nil in Hc.
  - destruct rs as [|r0 rs]; [by rewrite lookup_nil in Hr|].
    destruct i as [|i]; simpl in *.
    + injection Hc as ->. injection Hr as ->.
      exists [], (reports cs rs). unfold report. cbn [fst snd].
      replace (n =? Z.of_nat (length c)) with false
        by (symmetry; apply Z.eqb_neq; lia).
      reflexivity.
    + destruct (IH rs i c n errors Hc Hr Hlt) as (before & after & ->).
      exists (report c0 r0 ++ before), after. by rewrite <- app_assoc.
Qed.

End CommitClaims.

(** ** [strip] *)

Lemma lstrip_all_space s : all_space s = true -> lstrip s = EmptyString.
Proof.
  induction s as [|c s IH]; simpl; [done|].
  destruct (isspace c); [exact IH|done].
Qed.

Lemma lstrip_head s :
  all_space s = false ->
  exists c rest, lstrip s = String c rest /\ isspace c = false.
Proof.
  induction s as [|c s IH]; simpl; [done|].
  destruct (isspace c) eqn:Hc; [exact IH|]. intros _. by exists c, s.
Qed.

Lemma rstrip_head c rest : isspace c = false -> rstrip (String c rest) <> EmptyString.
Proof. intros Hc. simpl. destruct (rstrip rest); by rewrite ?Hc. Qed.

(** Stripping leaves nothing exactly when the line is empty or all
    whitespace. *)
Lemma strip_empty s : strip s = EmptyString <-> all_space s = true.
Proof.
  unfold strip. split.
  - intros Hs. destruct (all_space s) eqn:Hall; [done|].
    destruct (lstrip_head s Hall) as (c & rest & Hl & Hc).
    rewrite Hl in Hs. by apply rstrip_head in Hs.
  - intros Hall. by rewrite lstrip_all_space.
Qed.

Lemma strip_length s :
  (String.length (strip s) =? 0)%nat = all_space s.
Proof.
  destruct (all_space s) eqn:Hall.
  - apply strip_empty in Hall. by rewrite Hall.
  - destruct (strip s) eqn:Hs; [|done].
    apply strip_empty in Hs. congruence.
Qed.

(** ** [process] *)

Section ProcessProperties.
Context {W : Type} `{!Libraries W}.
Implicit Types (st : state W) (transform_func index_func : hook W)
         (d : gmap string pyvalue).

(** The state after one more record has been logged. *)
Local Abbreviation logged st r :=
  (mkState (TO_SEND st) (LOG st ++ [r]) (es_requests st) (world st)).

Lemma process_blank line transform_func index_func st :
  all_space line = true ->
  process (Some line) transform_func index_func st = (Return false, st).
Proof. intros Hall. unfold process. by rewrite strip_length, Hall. Qed.

Lemma process_undecodable line transform_func index_func st :
  all_space line = false ->
  json_loads (strip line) = None ->
  process (Some line) transform_func index_func st =
    (Return false,
     logged st (mkLog WARNING "can't decode the line: %s as JSON"
                      [ArgStr (strip line)])).
Proof.
  intros Hall Hjson. unfold process. by rewrite strip_length, Hall, Hjson.
Qed.

Lemma process_not_a_dict line transform_func index_func st v :
  all_space line = false ->
  json_loads (strip line) = Some v ->
  isinstance_dict v = false ->
  process (Some line) transform_func index_func st =
    (Return false,
     logged st (mkLog WARNING "the decoded line: %s must be a JSON dict"
                      [ArgStr (strip line)])).
Proof.
  intros Hall Hjson Hv. unfold process. rewrite strip_length, Hall, Hjson.
  by destruct v.
Qed.

(** A decoded dict goes to the index hook first, then to the transform
    hook, and the verdict depends on what the transform returned. *)
Lemma process_decoded line transform_func index_func st d :
  all_space line = false ->
  json_loads (strip line) = Some (PyDict d) ->
  process (Some line) transform_func index_func st =
    match index_func d (world st) with
    | (Raise e, _, w1) =>
        (Raise e, mkState (TO_SEND st) (LOG st) (es_requests st) w1)
    | (Return index, d1, w1) =>
        match transform_func d1 w1 with
        | (Raise e, _, w2) =>
            (Raise e, mkState (TO_SEND st) (LOG st) (es_requests st) w2)
        | (Return transformed, _, w2) =>
            match transformed with
            | PyNone =>
                (Return false,
                 mkState (TO_SEND st) (LOG st) (es_requests st) w2)
            | PyDict source =>
                (Return true,
                 mkState (TO_SEND st ++ [mkAction "index" index "_doc" source])
                         (LOG st) (es_requests st) w2)
            | _ =>
                (Return false,
                 mkState (TO_SEND st)
                         (LOG st ++
                            [mkLog WARNING
                               "the transformed function must return a dict (or None), got: %s"
                               [ArgType transformed]])
                         (es_requests st) w2)
            end
        end
    end.
Proof.
  intros Hall Hjson. unfold process. rewrite strip_length, Hall, Hjson.
  unfold bind at 1. unfold call at 1.
  destruct (index_func d (world st)) as [[[index|e] d1] w1]; [|done].
  unfold bind at 1. unfold call at 1. cbn [world].
  destruct (transform_func d1 w1) as [[[transformed|e] d2] w2]; [|done].
  by destruct transformed.
Qed.

End ProcessProperties.

Section ProcessClaims.
Context {W : Type} `{!Libraries W}.
Implicit Types (st : state W) (transform_func index_func : hook W)
         (d : gmap string pyvalue).


(** C7.  For a line that decodes to a dict, the index hook is applied to
    the decoded dict in the world as it stands, and only then the
    transform hook runs, on the dict and world the index hook left.  When
    the transform returns a dict, the operation appended to the buffer
    pairs the index hook's value with the transformed dict.  When the
    index hook raises, the transform hook is never consulted. *)
Theorem process_index_before_transform line transform_func index_func st d :
  all_space line = false ->
  json_loads (strip line) = Some (PyDict d) ->
  (forall index d1 w1 source d2 w2,
     index_func d (world st) = (Return index, d1, w1) ->
     transform_func d1 w1 = (Return (PyDict source), d2, w2) ->
     process (Some line) transform_func index_func st =
       (Return true,
        mkState (TO_SEND st ++ [mkAction "index" index "_doc" source])
                (LOG st) (es_requests st) w2))
  /\ (forall e d1 w1,
        index_func d (world st) = (Raise e, d1, w1) ->
        process (Some line) transform_func index_func st =
          (Raise e, mkState (TO_SEND st) (LOG st) (es_requests st) w1)).
Proof.
  intros Hall Hjson. split.
  - intros index d1 w1 source d2 w2 Hindex Htransform.
    erewrite process_decoded by eassumption.
    by rewrite Hindex, Htransform.
  - intros e d1 w1 Hindex.
    erewrite process_decoded by eassumption.
    by rewrite Hindex.
Qed.

(** C9.  [process] either leaves the buffer exactly as it was or, when it
    returns [True], appends one operation at its end.  [commit] either
    leaves the buffer exactly as it was or, when it returns [True],
    leaves it empty.  This holds for every line, hooks and backend,
    exceptions included. *)
Theorem buffer_append_only st :
  (forall line transform_func index_func,
     let out := process line transform_func index_func st in
     (out.1 = Return true /\ exists op, TO_SEND out.2 = TO_SEND st ++ [op])
     \/ (out.1 <> Return true /\ TO_SEND out.2 = TO_SEND st))
  /\ (forall force,
        let out := commit force st in
        (out.1 = Return true /\ TO_SEND out.2 = [])
        \/ (out.1 <> Return true /\ TO_SEND out.2 = TO_SEND st)).
Proof.
  split.
  - intros [line|] transform_func index_func out; subst out; [|by right].
    destruct (all_space line) eqn:Hall.
    { rewrite process_blank by done. by right. }
    destruct (json_loads (strip line)) as [v|] eqn:Hjson; last first.
    { rewrite process_undecodable by done. by right. }
    destruct (isinstance_dict v) eqn:Hv; last first.
    { erewrite process_not_a_dict by done. by right. }
    destruct v as [| | | | | |d|]; try done.
    erewrite process_decoded by eassumption.
    destruct (index_func d (world st)) as [[[index|e] d1] w1]; [|by right].
    destruct (transform_func d1 w1) as [[[transformed|e] d2] w2]; [|by right].
    destruct transformed; try by right.
    left. split; [done|]. by eexists.
  - intros force out. subst out. rewrite commit_unfold.
    destruct (negb force && _); [by right|].
    destruct (_ =? _)%nat; [by right|].
    cbv zeta. destruct (chunks (TO_SEND st) 500) as [cs|e]; [|by right].
    match goal with |- context [for_each cs ?body ?st1] => set (s1 := st1) end.
    destruct (bulk_all cs (world s1)) as [[rs|e] w] eqn:Hall.
    + erewrite flush_loop by exact Hall. by left.
    + destruct (flush_loop_raise cs s1 e w Hall) as (st' & -> & Hbuf & _).
      by right.
Qed.

(** C10.  [process(None, ...)] returns [False] and leaves the whole state
    untouched: nothing is logged and the buffer is as it was. *)
Theorem process_none transform_func index_func st :
  process None transform_func index_func st = (Return false, st).
Proof. reflexivity. Qed.

End ProcessClaims.

(** ** The index router *)

Section IndexClaims.
Context {W : Type} `{!Libraries W}.
Implicit Types (st : state W) (d : gmap string pyvalue) (w : W).

Lemma default_index_func_aware index_const_value d w timestamp ref offset ref_utc :
  d !! "@timestamp" = Some timestamp ->
  dateutil_parse timestamp w = Return ref ->
  Datetime.utcoffset ref = Some offset ->
  Datetime.sub (Datetime.replace_tzinfo ref Datetime.utc) offset = Return ref_utc ->
  default_index_func index_const_value d w =
    (format_time ref_utc index_const_value, d, w).
Proof.
  intros Hts Hparse Hoff Hsub. unfold default_index_func.
  by rewrite Hts, Hparse, Hoff, Hsub.
Qed.

(** An instant within the years 1 to 9999 is the instant of a
    [datetime], and [sub] finds it. *)
Lemma sub_in_range ref offset :
  Datetime.microseconds_per_day <= Datetime.to_microseconds ref - offset
    < (Datetime._MAXORDINAL + 1) * Datetime.microseconds_per_day ->
  exists ref_utc,
    Datetime.sub (Datetime.replace_tzinfo ref Datetime.utc) offset
      = Return ref_utc.
Proof.
  intros Hrange. unfold Datetime.sub, Datetime.add. cbv zeta.
  replace (Datetime.to_microseconds (Datetime.replace_tzinfo ref Datetime.utc))
    with (Datetime.to_microseconds ref) by reflexivity.
  set (total := Datetime.to_microseconds ref + - offset).
  assert (Hin : (0 <? total / Datetime.microseconds_per_day)
                && (total / Datetime.microseconds_per_day
                    <=? Datetime._MAXORDINAL) = true).
  { apply andb_true_iff. unfold Datetime.microseconds_per_day,
      Datetime._MAXORDINAL in *.
    split; [apply Z.ltb_lt|apply Z.leb_le];
      subst total; Z.to_euclidean_division_equations; lia. }
  rewrite Hin. destruct (Datetime._ord2ymd _) as [[y m] dd]. by eexists.
Qed.

(** C5.  With the template [logs-%Y.%m.%d], a document whose [@timestamp]
    the parser reads as 2023-01-01 23:30:00 at offset +02:00 is routed to
    [logs-2023.01.01], and one read as 2023-01-01 01:30:00 at +02:00,
    which is 2022-12-31 23:30 UTC, to [logs-2022.12.31].  In general a
    timestamp that parses to a datetime with a UTC offset, at an instant
    within the years 1 to 9999, has the template applied to the one
    well-formed datetime that is tagged UTC and denotes the parsed fields
    minus the offset.  A document without [@timestamp] has the template
    applied to the clock reading.  A timestamp the parser refuses raises
    the parser's exception, and one that parses to a datetime without a
    UTC offset raises [TypeError] in place of an index. *)
Theorem default_index_func_utc d w :
  (d !! "@timestamp" = Some (PyStr "2023-01-01T23:30:00+02:00") ->
   dateutil_parse (PyStr "2023-01-01T23:30:00+02:00") w =
     Return (Datetime.mkDatetime 2023 1 1 23 30 0 0
                                 (Some (Datetime.timedelta_of 2 0 0))) ->
   default_index_func "logs-%Y.%m.%d" d w =
     (Return (PyStr "logs-2023.01.01"), d, w))
  /\ (d !! "@timestamp" = Some (PyStr "2023-01-01T01:30:00+02:00") ->
      dateutil_parse (PyStr "2023-01-01T01:30:00+02:00") w =
        Return (Datetime.mkDatetime 2023 1 1 1 30 0 0
                                    (Some (Datetime.timedelta_of 2 0 0))) ->
      default_index_func "logs-%Y.%m.%d" d w =
        (Return (PyStr "logs-2022.12.31"), d, w))
  /\ (forall index_const_value timestamp ref offset,
        d !! "@timestamp" = Some timestamp ->
        dateutil_parse timestamp w = Return ref ->
        Datetime.utcoffset ref = Some offset ->
        Datetime.microseconds_per_day
          <= Datetime.to_microseconds ref - offset
          < (Datetime._MAXORDINAL + 1) * Datetime.microseconds_per_day ->
        exists ref_utc,
          default_index_func index_const_value d w =
            (format_time ref_utc index_const_value, d, w)
          /\ Datetime.well_formed ref_utc
          /\ Datetime.tzinfo ref_utc = Datetime.utc
          /\ Datetime.to_microseconds ref_utc
             = Datetime.to_microseconds ref - offset
          /\ (forall u,
                Datetime.well_formed u ->
                Datetime.tzinfo u = Datetime.utc ->
                Datetime.to_microseconds u
                  = Datetime.to_microseconds ref - offset ->
                u = ref_utc))
  /\ (forall index_const_value,
        d !! "@timestamp" = None ->
        default_index_func index_const_value d w =
          (format_time (utcnow w) index_const_value, d, w))
  /\ (forall index_const_value timestamp e,
        d !! "@timestamp" = Some timestamp ->
        dateutil_parse timestamp w = Raise e ->
        default_index_func index_const_value d w = (Raise e, d, w))
  /\ (forall index_const_value timestamp ref,
        d !! "@timestamp" = Some timestamp ->
        dateutil_parse timestamp w = Return ref ->
        Datetime.utcoffset ref = None ->
        default_index_func index_const_value d w = (Raise TypeError, d, w)).
Proof.
  repeat split.
  - intros Hts Hparse.
    by erewrite default_index_func_aware by (try eassumption; reflexivity).
  - intros Hts Hparse.
    by erewrite default_index_func_aware by (try eassumption; reflexivity).
  - intros index_const_value timestamp ref offset Hts Hparse Hoff Hrange.
    destruct (sub_in_range ref offset Hrange) as (ref_utc & Hsub).
    exists ref_utc.
    pose proof (add_well_formed _ _ _ Hsub) as Hwf.
    apply sub_exact in Hsub as Hexact. destruct Hexact as (Hus & Htz).
    split; [by eapply default_index_func_aware|].
    split; [done|]. split; [done|]. split; [exact Hus|].
    intros u Hu Hutz Huus. apply instant_unique; try done.
    + by rewrite Huus, Hus.
    + by rewrite Hutz, Htz.
  - intros index_const_value Hts. unfold default_index_func. by rewrite Hts.
  - intros index_const_value timestamp e Hts Hparse.
    unfold default_index_func. by rewrite Hts, Hparse.
  - intros index_const_value timestamp ref Hts Hparse Hoff.
    unfold default_index_func. by rewrite Hts, Hparse, Hoff.
Qed.

(** C8, at the failing inputs.  With the default hooks, a line that decodes
    to a dict whose [@timestamp] the parser refuses makes [process] raise
    the parser's exception; one whose [@timestamp] parses to a datetime
    without UTC offset makes it raise [TypeError].  Nothing is logged and
    the buffer is as it was. *)
Theorem process_raises_on_timestamp line index_const_value st d timestamp :
  all_space line = false ->
  json_loads (strip line) = Some (PyDict d) ->
  d !! "@timestamp" = Some timestamp ->
  (forall e,
     dateutil_parse timestamp (world st) = Raise e ->
     process (Some line) no_transform (default_index_func index_const_value) st
       = (Raise e, st))
  /\ (forall ref,
        dateutil_parse timestamp (world st) = Return ref ->
        Datetime.utcoffset ref = None ->
        process (Some line) no_transform (default_index_func index_const_value) st
          = (Raise TypeError, st)).
Proof.
  intros Hall Hjson Hts. split.
  - intros e Hparse. erewrite process_decoded by eassumption.
    unfold default_index_func. rewrite Hts, Hparse. by destruct st.
  - intros ref Hparse Hoff. erewrite process_decoded by eassumption.
    unfold default_index_func. rewrite Hts, Hparse, Hoff. by destruct st.
Qed.

End IndexClaims.

(** ** Rotation detection *)

(** C6.  When the watched path exists, [patched_is_new_file] returns a
    truthy value exactly when (a) [_rotated_logfile] names a rotated file,
    or (b) the handle's size on disk equals the position read and its
    inode differs from the path's, or (c) the inodes agree and the size on
    disk is strictly below the position read. *)
Theorem patched_is_new_file_iff self inode2 :
  stat_filename_st_ino self = Return inode2 ->
  exists v,
    patched_is_new_file self = Return v
    /\ (truthy v = true <->
        (exists name, _rotated_logfile self = Some name /\ name <> EmptyString)
        \/ (filehandle_tell self = fstat_st_size self
            /\ fstat_st_ino self <> inode2)
        \/ (fstat_st_ino self = inode2
            /\ fstat_st_size self < filehandle_tell self)).
Proof.
  intros Hstat. unfold patched_is_new_file. rewrite Hstat.
  eexists. split; [reflexivity|].
  destruct (_rotated_logfile self) as [[|c name]|] eqn:Hflag;
    unfold py_or; cbn [truthy String.length Nat.eqb negb].
  2: { split; [|done]. intros _. left. by eexists. }
  all: destruct (Z.eqb_spec (filehandle_tell self) (fstat_st_size self));
    destruct (Z.eqb_spec (fstat_st_ino self) inode2);
    destruct (Z.ltb_spec (fstat_st_size self) (filehandle_tell self));
    cbn [andb negb truthy]; split; try done; try (intros _; tauto);
    intros [(name & [= <-] & Hne)|[[? ?]|[? ?]]]; try done; try lia.
Qed.

(** ** A transport failure is not caught *)

(** When the backend call raises, [commit] lets the exception through and
    the buffer keeps every operation. *)
Lemma commit_transport_failure {W : Type} `{!Libraries W}
      force (st : state W) cs e w :
  TO_SEND st <> [] ->
  force = true \/ (500 <= length (TO_SEND st))%nat ->
  chunks (TO_SEND st) 500 = Return cs ->
  bulk_all cs (world st) = (Raise e, w) ->
  exists st', commit force st = (Raise e, st') /\ TO_SEND st' = TO_SEND st.
Proof.
  intros Hne Hgo Hcs Hall. rewrite commit_unfold.
  replace (negb force && (length (TO_SEND st) <? 500)%nat) with false; last first.
  { destruct Hgo as [->|Hlen]; [done|].
    symmetry. apply andb_false_iff. right. apply Nat.ltb_ge. lia. }
  replace (length (TO_SEND st) =? 0)%nat with false; last first.
  { symmetry. apply Nat.eqb_neq. destruct (TO_SEND st); simpl; [done|lia]. }
  cbv zeta. rewrite Hcs.
  match goal with |- context [for_each cs ?body ?st1] => set (s1 := st1) end.
  destruct (flush_loop_raise cs s1 e w Hall) as (st' & -> & Hbuf & _).
  by exists st'.
Qed.

(** ** The statements at work on the reference instance *)

Lemma commit_force_flushes_witness :
  TO_SEND (Reference.pending 1001 500) <> []
  /\ backend_answers (TO_SEND (Reference.pending 1001 500))
                     (world (Reference.pending 1001 500)) = true
  /\ exists st' cs,
       commit true (Reference.pending 1001 500) = (Return true, st')
       /\ TO_SEND st' = []
       /\ es_requests st' = cs
       /\ map length cs = [500; 500; 1]%nat.
Proof.
  assert (Hne : TO_SEND (Reference.pending 1001 500) <> [])
    by (vm_compute; discriminate).
  assert (Hans : backend_answers (TO_SEND (Reference.pending 1001 500))
                                 (world (Reference.pending 1001 500)) = true)
    by (vm_compute; reflexivity).
  split; [exact Hne|]. split; [exact Hans|].
  destruct (commit_force_flushes (Reference.pending 1001 500) Hne Hans)
    as (st' & cs & Hrun & Hbuf & Hreq & _ & _ & _ & _ & Hsizes).
  exists st', cs. repeat split; try assumption.
  apply Hsizes. vm_compute. reflexivity.
Defined.

Lemma commit_threshold_witness :
  commit false (Reference.pending 499 500)
    = (Return false, Reference.pending 499 500)
  /\ (exists st',
        commit false (Reference.pending 500 500) = (Return true, st')
        /\ es_requests st' = [TO_SEND (Reference.pending 500 500)]
        /\ TO_SEND st' = [])
  /\ (forall force,
        commit force (Reference.pending 0 500)
          = (Return false, Reference.pending 0 500)).
Proof.
  split; [|split].
  - apply (proj1 (commit_threshold (Reference.pending 499 500))).
    vm_compute. lia.
  - apply (proj1 (proj2 (commit_threshold (Reference.pending 500 500)))).
    + vm_compute. reflexivity.
    + vm_compute. reflexivity.
  - apply (proj2 (proj2 (commit_threshold (Reference.pending 0 500)))).
    reflexivity.
Defined.



(** C4 as stated fails.  The backend rejects the single pending item and
    reports one error; the log ends up with a WARNING record that carries
    the count alone, and the failure detail sits in a DEBUG record. *)
Lemma commit_warning_without_detail :
  bulk (TO_SEND (Reference.pending 1 0)) (world (Reference.pending 1 0))
    = (BulkReturn 0 [PyStr "rejected"], world (Reference.pending 1 0))
  /\ (commit true (Reference.pending 1 0)).1 = Return true
  /\ ~ warns_with_detail (LOG (commit true (Reference.pending 1 0)).2)
                         1 [PyStr "rejected"].
Proof.
  split; [reflexivity|]. split; [reflexivity|].
  intros (r & Hin & Hlevel & _ & Hdetail).
  vm_compute in Hin.
  destruct Hin as [<-|[<-|[<-|[]]]]; try discriminate Hlevel.
  destruct Hdetail as [Habs|[]]. discriminate Habs.
Qed.

Lemma commit_partial_failure_witness :
  exists st',
    commit true (Reference.pending 3 1) = (Return true, st')
    /\ TO_SEND st' = []
    /\ es_requests st' = [TO_SEND (Reference.pending 3 1)]
    /\ LOG st' =
         [mkLog INFO "commiting %i line(s) to ES..." [ArgInt 3];
          mkLog WARNING "can't post %i lines to ES" [ArgInt 2];
          mkLog DEBUG "raw output: %s"
                [ArgValue (PyList [PyStr "rejected"; PyStr "rejected"])]].
Proof.
  destruct (commit_partial_failure true (Reference.pending 3 1)
              [TO_SEND (Reference.pending 3 1)]
              [(1, [PyStr "rejected"; PyStr "rejected"])]
              (world (Reference.pending 3 1)))
    as (st' & Hrun & Hbuf & Hreq & Hlog & _).
  - vm_compute. discriminate.
  - by left.
  - vm_compute. reflexivity.
  - vm_compute. reflexivity.
  - exists st'. repeat split; assumption.
Defined.

Lemma default_index_func_utc_witness :
  default_index_func "logs-%Y.%m.%d"
    (<["@timestamp" := PyStr "2023-01-01T23:30:00+02:00"]> ∅)
    (Reference.mkEnv Reference.noon 500)
  = (Return (PyStr "logs-2023.01.01"),
     <["@timestamp" := PyStr "2023-01-01T23:30:00+02:00"]> ∅,
     Reference.mkEnv Reference.noon 500)
  /\ default_index_func "logs-%Y.%m.%d"
       (<["@timestamp" := PyStr "2023-01-01T01:30:00+02:00"]> ∅)
       (Reference.mkEnv Reference.noon 500)
     = (Return (PyStr "logs-2022.12.31"),
        <["@timestamp" := PyStr "2023-01-01T01:30:00+02:00"]> ∅,
        Reference.mkEnv Reference.noon 500)
  /\ default_index_func "logs-%Y.%m.%d"
       (<["@timestamp" := PyStr "2023-01-01T23:30:00"]> ∅)
       (Reference.mkEnv Reference.noon 500)
     = (Raise TypeError,
        <["@timestamp" := PyStr "2023-01-01T23:30:00"]> ∅,
        Reference.mkEnv Reference.noon 500).
Proof.
  split; [|split].
  - apply (proj1 (default_index_func_utc
                    (<["@timestamp" := PyStr "2023-01-01T23:30:00+02:00"]> ∅)
                    (Reference.mkEnv Reference.noon 500))).
    + vm_compute. reflexivity.
    + vm_compute. reflexivity.
  - apply (proj1 (proj2 (default_index_func_utc
                    (<["@timestamp" := PyStr "2023-01-01T01:30:00+02:00"]> ∅)
                    (Reference.mkEnv Reference.noon 500)))).
    + vm_compute. reflexivity.
    + vm_compute. reflexivity.
  - apply (proj2 (proj2 (proj2 (proj2 (proj2 (default_index_func_utc
                    (<["@timestamp" := PyStr "2023-01-01T23:30:00"]> ∅)
                    (Reference.mkEnv Reference.noon 500)))))))
      with (timestamp := PyStr "2023-01-01T23:30:00")
           (ref := Datetime.mkDatetime 2023 1 1 23 30 0 0 None).
    + vm_compute. reflexivity.
    + vm_compute. reflexivity.
    + reflexivity.
Defined.

Lemma patched_is_new_file_iff_witness :
  exists v,
    patched_is_new_file (mkPygtail None 120 40 7 (Return 7)) = Return v
    /\ truthy v = true.
Proof.
  destruct (patched_is_new_file_iff (mkPygtail None 120 40 7 (Return 7)) 7
              eq_refl) as (v & Hrun & Hiff).
  exists v. split; [exact Hrun|].
  apply Hiff. right. right. cbn. lia.
Defined.

Lemma process_index_before_transform_witness :
  process (Some Reference.line_aware) Reference.retag
          (default_index_func "logs-%Y.%m.%d") (Reference.pending 0 500)
  = (Return true,
     mkState [mkAction "index" (PyStr "logs-2023.01.01") "_doc"
                       (<["tag" := PyStr "seen"]> ∅)]
             [] [] (world (Reference.pending 0 500))).
Proof.
  assert (Hdecoded :
            json_loads (strip Reference.line_aware) =
            Some (PyDict (<["@timestamp" := PyStr "2023-01-01T23:30:00+02:00"]> ∅)))
    by (vm_compute; reflexivity).
  apply (proj1 (process_index_before_transform
                  Reference.line_aware Reference.retag
                  (default_index_func "logs-%Y.%m.%d")
                  (Reference.pending 0 500) _ eq_refl Hdecoded)
               (PyStr "logs-2023.01.01")
               (<["@timestamp" := PyStr "2023-01-01T23:30:00+02:00"]> ∅)
               (world (Reference.pending 0 500))
               (<["tag" := PyStr "seen"]> ∅)
               (<["@timestamp" := PyStr "2023-01-01T23:30:00+02:00"]> ∅)
               (world (Reference.pending 0 500))).
  - vm_compute. reflexivity.
  - vm_compute. reflexivity.
Defined.

Lemma process_raises_on_timestamp_witness :
  process (Some Reference.line_naive) no_transform
          (default_index_func "logs-%Y.%m.%d") (Reference.pending 0 500)
    = (Raise TypeError, Reference.pending 0 500)
  /\ process (Some Reference.line_epoch) no_transform
             (default_index_func "logs-%Y.%m.%d") (Reference.pending 0 500)
       = (Raise TypeError, Reference.pending 0 500).
Proof.
  assert (Hnaive :
            json_loads (strip Reference.line_naive) =
            Some (PyDict (<["@timestamp" := PyStr "2023-01-01T23:30:00"]> ∅)))
    by (vm_compute; reflexivity).
  assert (Hepoch :
            json_loads (strip Reference.line_epoch) =
            Some (PyDict (<["@timestamp" := PyInt 1672608600]> ∅)))
    by (vm_compute; reflexivity).
  split.
  - apply (proj2 (process_raises_on_timestamp
                    Reference.line_naive "logs-%Y.%m.%d"
                    (Reference.pending 0 500) _
                    (PyStr "2023-01-01T23:30:00")
                    eq_refl Hnaive ltac:(vm_compute; reflexivity))
                 (Datetime.mkDatetime 2023 1 1 23 30 0 0 None)).
    + vm_compute. reflexivity.
    + reflexivity.
  - apply (proj1 (process_raises_on_timestamp
                    Reference.line_epoch "logs-%Y.%m.%d"
                    (Reference.pending 0 500) _
                    (PyInt 1672608600)
                    eq_refl Hepoch ltac:(vm_compute; reflexivity))
                 TypeError).
    reflexivity.
Defined.

(** A timestamp early in the local day lands on the previous UTC day, and
    so in the previous day's index. *)
Example utc_date_differs :
  default_index_func "logs-%Y.%m.%d"
    (<["@timestamp" := PyStr "2023-01-01T01:30:00+02:00"]> ∅)
    (Reference.mkEnv Reference.noon 500)
  = (Return (PyStr "logs-2022.12.31"),
     <["@timestamp" := PyStr "2023-01-01T01:30:00+02:00"]> ∅,
     Reference.mkEnv Reference.noon 500).
Proof. vm_compute. reflexivity. Qed.

(** A directive with a flag is the platform's: where [strftime] follows
    glibc, [%-d] is the day without padding.  A directive the platform
    refuses makes the index function raise. *)
Example platform_flag_directive :
  (default_index_func "logs-%-d"
     (<["@timestamp" := PyStr "2023-01-04T10:00:00Z"]> ∅)
     (Reference.mkEnv Reference.noon 500)).1.1
  = Return (PyStr "logs-4")
  /\ (default_index_func "logs-%q"
        (<["@timestamp" := PyStr "2023-01-04T10:00:00Z"]> ∅)
        (Reference.mkEnv Reference.noon 500)).1.1
     = Raise ValueError.
Proof. split; vm_compute; reflexivity. Qed.

(** A timestamp whose UTC instant falls before year 1 overflows. *)
Example utc_overflow :
  (default_index_func "logs-%Y.%m.%d"
     (<["@timestamp" := PyStr "0001-01-01T00:30:00+02:00"]> ∅)
     (Reference.mkEnv Reference.noon 500)).1.1
  = Raise OverflowError.
Proof. vm_compute. reflexivity. Qed.

(** With a dead connection a forced commit raises and keeps the buffer. *)
Example commit_unreachable :
  let out := @commit _ Reference.unreachable true (Reference.pending 2 500) in
  out.1 = Raise TransportError
  /\ TO_SEND out.2 = TO_SEND (Reference.pending 2 500).
Proof. split; vm_compute; reflexivity. Qed.

(** * Further properties *)

(** ** [chunks], for every chunk size *)

(** X1.  For a chunk size of at least 1, [chunks] cuts the list into
    consecutive pieces: glued back they give the list, every piece but the
    last has exactly [n] elements, no piece is empty or longer than [n],
    and there are [ceil(len / n)] of them. *)
Theorem chunks_partition {A : Type} (l : list A) (n : nat) :
  (0 < n)%nat ->
  exists cs,
    chunks l n = Return cs
    /\ concat cs = l
    /\ Forall (fun c => (1 <= length c <= n)%nat) cs
    /\ (forall i c, cs !! i = Some c -> (S i < length cs)%nat -> length c = n)
    /\ length cs = ((length l + n - 1) / n)%nat.
Proof.
  intros Hn. destruct (chunks_total l n Hn) as [cs Hcs]. exists cs.
  split; [done|]. split; [by eapply chunks_concat|].
  split; [by eapply chunks_sizes|].
  split; [|by eapply chunks_length].
  pose proof (chunks_length _ _ _ Hcs) as Hlen.
  rewrite chunks_unfold in Hcs by done. injection Hcs as <-.
  intros i c Hi Hlt. rewrite Hlen in Hlt.
  change (map ?f ?xs) with (f <$> xs) in Hi.
  rewrite list_lookup_fmap in Hi.
  destruct (seq 0 _ !! i) as [k|] eqn:Hk; [|done].
  apply lookup_seq in Hk as [-> _]. injection Hi as <-.
  rewrite length_take, length_drop. cbn [Nat.add].
  pose proof (ceil_bounds (length l) n Hn) as [_ Hceil].
  destruct (length l) eqn:E.
  - rewrite Nat.div_small in Hlt by lia. lia.
  - nia.
Qed.

(** X2.  The edges of [chunks]: a chunk size of 0 raises [ValueError]
    whatever the list; an empty list gives no chunk at all; a non-empty
    list of at most [n] elements is its own single chunk. *)
Theorem chunks_edges {A : Type} (l : list A) (n : nat) :
  chunks l 0 = Raise ValueError
  /\ ((0 < n)%nat -> chunks (@nil A) n = Return [])
  /\ ((1 <= length l <= n)%nat -> chunks l n = Return [l]).
Proof.
  split; [reflexivity|]. split.
  - intros Hn. rewrite chunks_unfold by done. cbn [length].
    rewrite Nat.div_small by lia. reflexivity.
  - apply chunks_single.
Qed.

(** ** [commit], beyond the claims *)

Section CommitFurther.
Context {W : Type} `{!Libraries W}.
Implicit Types (st : state W) (cs : list (list action))
         (rs : list (Z * list pyvalue)) (w : W).

Local Abbreviation post_chunk :=
  (fun chunk : list action =>
     bind (helpers_bulk chunk) (fun '(success, errors) =>
       if negb (success =? Z.of_nat (length chunk)) then
         bind (log WARNING "can't post %i lines to ES"
                   [ArgInt (Z.of_nat (length chunk) - success)])
              (fun _ => log DEBUG "raw output: %s" [ArgValue (PyList errors)])
       else ret tt)).

(** Where the loop stops when a call raises: the chunks up to and
    including the one that raised have been handed over. *)
Lemma flush_loop_interrupted cs : forall st e w,
  bulk_all cs (world st) = (Raise e, w) ->
  exists k st',
    (k < length cs)%nat
    /\ for_each cs post_chunk st = (Raise e, st')
    /\ es_requests st' = es_requests st ++ take (S k) cs
    /\ TO_SEND st' = TO_SEND st /\ world st' = w.
Proof.
  induction cs as [|c cs IH]; intros st e w Hall; simpl in *; [done|].
  unfold bind at 1 2. unfold helpers_bulk.
  destruct (bulk c (world st)) as [[n errors|e1] w1].
  - destruct (bulk_all cs w1) as [[rs1|e2] w2] eqn:Hrest; [done|].
    injection Hall as <- <-.
    destruct (negb (n =? Z.of_nat (length c))).
    + unfold bind, log. cbn [TO_SEND LOG es_requests world].
      edestruct IH as (k & st' & Hk & -> & Hreq & Hbuf & Hw);
        [cbn [world]; exact Hrest|].
      exists (S k), st'. cbn [TO_SEND es_requests world] in *.
      repeat split; try done; [lia|].
      rewrite Hreq, <- app_assoc. reflexivity.
    + unfold ret.
      edestruct IH as (k & st' & Hk & -> & Hreq & Hbuf & Hw);
        [cbn [world]; exact Hrest|].
      exists (S k), st'. cbn [TO_SEND es_requests world] in *.
      repeat split; try done; [lia|].
      rewrite Hreq, <- app_assoc. reflexivity.
  - injection Hall as <- <-. exists 0%nat. eexists.
    repeat split; try done. lia.
Qed.

(** A commit that flushes into a transport failure. *)
Lemma commit_raise force st cs e w :
  TO_SEND st <> [] ->
  force = true \/ (500 <= length (TO_SEND st))%nat ->
  chunks (TO_SEND st) 500 = Return cs ->
  bulk_all cs (world st) = (Raise e, w) ->
  exists k st',
    (k < length cs)%nat
    /\ commit force st = (Raise e, st')
    /\ es_requests st' = es_requests st ++ take (S k) cs
    /\ TO_SEND st' = TO_SEND st /\ world st' = w.
Proof.
  intros Hne Hgo Hcs Hall. rewrite commit_unfold.
  replace (negb force && (length (TO_SEND st) <? 500)%nat) with false
    by (symmetry; destruct Hgo as [->|?]; [done|];
        apply andb_false_iff; right; apply Nat.ltb_ge; lia).
  replace (length (TO_SEND st) =? 0)%nat with false
    by (symmetry; apply Nat.eqb_neq; destruct (TO_SEND st); simpl; [done|lia]).
  cbv zeta. rewrite Hcs.
  match goal with |- context [for_each cs ?body ?st1] => set (s1 := st1) end.
  destruct (flush_loop_interrupted cs s1 e w Hall)
    as (k & st' & Hk & Hrun & Hreq & Hkeep & Hw).
  exists k, st'. rewrite Hrun. by repeat split.
Qed.

(** Every outcome of [commit], in one statement. *)
Lemma commit_cases force st :
  commit force st = (Return false, st)
  \/ (exists cs rs w,
        TO_SEND st <> []
        /\ chunks (TO_SEND st) 500 = Return cs
        /\ bulk_all cs (world st) = (Return rs, w)
        /\ commit force st =
             (Return true,
              mkState []
                      (LOG st ++ mkLog INFO "commiting %i line(s) to ES..."
                                       [ArgInt (Z.of_nat (length (TO_SEND st)))]
                              :: reports cs rs)
                      (es_requests st ++ cs) w))
  \/ (exists cs e w k st',
        TO_SEND st <> []
        /\ chunks (TO_SEND st) 500 = Return cs
        /\ bulk_all cs (world st) = (Raise e, w)
        /\ (k < length cs)%nat
        /\ commit force st = (Raise e, st')
        /\ es_requests st' = es_requests st ++ take (S k) cs
        /\ TO_SEND st' = TO_SEND st /\ world st' = w).
Proof.
  destruct (negb force && (length (TO_SEND st) <? 500)%nat) eqn:Hgate.
  { left. rewrite commit_unfold. by rewrite Hgate. }
  destruct (TO_SEND st) as [|a buffer] eqn:Hbuf.
  { left. rewrite commit_unfold, Hbuf. cbn [length].
    by destruct (negb force && _). }
  assert (Hne : TO_SEND st <> []) by (by rewrite Hbuf).
  assert (Hgo : force = true \/ (500 <= length (TO_SEND st))%nat).
  { rewrite <- Hbuf in Hgate. apply andb_false_iff in Hgate as [Hf|Hl].
    - left. by destruct force.
    - right. by apply Nat.ltb_ge in Hl. }
  rewrite <- Hbuf in *.
  destruct (chunks_total (TO_SEND st) 500 ltac:(lia)) as [cs Hcs].
  destruct (bulk_all cs (world st)) as [[rs|e] w] eqn:Hall.
  - right. left. exists cs, rs, w. repeat split; try done.
    by apply commit_flush.
  - right. right.
    destruct (commit_raise force st cs e w Hne Hgo Hcs Hall)
      as (k & st' & Hk & Hrun & Hreq & Hkeep & Hw).
    exists cs, e, w, k, st'. by repeat split.
Qed.

Lemma bulk_all_length cs : forall w rs w',
  bulk_all cs w = (Return rs, w') -> length rs = length cs.
Proof.
  induction cs as [|c cs IH]; intros w rs w' Hall; simpl in Hall.
  - by injection Hall as <- <-.
  - destruct (bulk c w) as [[n errors|e] w1]; [|done].
    destruct (bulk_all cs w1) as [[rs1|e] w2] eqn:Hrest; [|done].
    injection Hall as <- <-. simpl. f_equal. by eapply IH.
Qed.

Lemma reports_nil cs : forall rs,
  length rs = length cs ->
  reports cs rs = [] <-> Forall2 (fun c r => r.1 = Z.of_nat (length c)) cs rs.
Proof.
  induction cs as [|c cs IH]; intros [|r rs] Hlen; simpl in *; try done.
  injection Hlen as Hlen. unfold report at 1.
  destruct (Z.eqb_spec r.1 (Z.of_nat (length c))) as [Heq|Hneq]; cbn [negb].
  - rewrite app_nil_l, (IH rs Hlen). split.
    + by constructor.
    + by inversion 1.
  - split; [done|]. by inversion 1.
Qed.

(** What has been handed over, followed by what is pending, is the same
    before and after a commit that returns. *)
Lemma commit_delivered force st b st' :
  commit force st = (Return b, st') ->
  concat (es_requests st') ++ TO_SEND st' =
  concat (es_requests st) ++ TO_SEND st.
Proof.
  intros Hrun.
  destruct (commit_cases force st)
    as [Hidle|[(cs & rs & w & Hne & Hcs & Hall & Hflush)
              |(cs & e & w & k & st2 & _ & _ & _ & _ & Hraise & _)]].
  - rewrite Hidle in Hrun. by injection Hrun as <- <-.
  - rewrite Hflush in Hrun. injection Hrun as <- <-.
    cbn [TO_SEND es_requests].
    rewrite concat_app, app_nil_r. f_equal. by eapply chunks_concat.
  - rewrite Hraise in Hrun. discriminate.
Qed.

(** A commit on a buffer that fits one chunk, when it does flush. *)
Lemma commit_single force st :
  (1 <= length (TO_SEND st) <= 500)%nat ->
  force = true \/ length (TO_SEND st) = 500%nat ->
  (exists rs w,
     commit force st =
       (Return true,
        mkState []
                (LOG st ++ mkLog INFO "commiting %i line(s) to ES..."
                                 [ArgInt (Z.of_nat (length (TO_SEND st)))]
                        :: reports [TO_SEND st] rs)
                (es_requests st ++ [TO_SEND st]) w))
  \/ (exists e st',
        commit force st = (Raise e, st')
        /\ es_requests st' = es_requests st ++ [TO_SEND st]
        /\ TO_SEND st' = TO_SEND st).
Proof.
  intros Hlen Hgo.
  assert (Hne : TO_SEND st <> [])
    by (intros Hnil; rewrite Hnil in Hlen; simpl in Hlen; lia).
  assert (Hgo' : force = true \/ (500 <= length (TO_SEND st))%nat)
    by (destruct Hgo; [by left|right; lia]).
  pose proof (chunks_single (TO_SEND st) 500 Hlen) as Hcs.
  destruct (bulk_all [TO_SEND st] (world st)) as [[rs|e] w] eqn:Hall.
  - left. exists rs, w. by apply commit_flush.
  - right.
    destruct (commit_raise force st _ e w Hne Hgo' Hcs Hall)
      as (k & st' & Hk & Hrun & Hreq & Hkeep & _).
    exists e, st'. split; [done|]. split; [|done].
    rewrite Hreq. by destruct k.
Qed.

Lemma commit_below_threshold st :
  (length (TO_SEND st) < 500)%nat -> commit false st = (Return false, st).
Proof.
  intros Hlt. rewrite commit_unfold. apply Nat.ltb_lt in Hlt. by rewrite Hlt.
Qed.

(** X3.  A commit that returns has neither lost, duplicated nor reordered
    anything: all bulk requests so far, glued together and followed by the
    buffer, read the same before and after. *)
Theorem commit_conserves force st b st' :
  commit force st = (Return b, st') ->
  concat (es_requests st') ++ TO_SEND st' =
  concat (es_requests st) ++ TO_SEND st.
Proof. apply commit_delivered. Qed.

(** X4.  Right after a commit that flushed, another commit, forced or
    not, returns [False] and does nothing: no backend call, no log
    record. *)
Theorem commit_twice force st st' :
  commit force st = (Return true, st') ->
  forall force', commit force' st' = (Return false, st').
Proof.
  intros Hrun force'.
  assert (Hempty : TO_SEND st' = []).
  { destruct (commit_cases force st)
      as [Hidle|[(cs & rs & w & _ & _ & _ & Hflush)
                |(cs & e & w & k & st2 & _ & _ & _ & _ & Hraise & _)]].
    - rewrite Hidle in Hrun. discriminate.
    - rewrite Hflush in Hrun. by injection Hrun as <-.
    - rewrite Hraise in Hrun. discriminate. }
  rewrite commit_unfold, Hempty. cbn [length]. by destruct force'.
Qed.

(** X5.  When a bulk call raises in the middle of a flush, the exception
    leaves [commit], the chunks up to and including the one that raised
    have been handed to the backend, and the buffer still holds every
    operation, those already handed over included. *)
Theorem commit_interrupted force st cs e w :
  TO_SEND st <> [] ->
  force = true \/ (500 <= length (TO_SEND st))%nat ->
  chunks (TO_SEND st) 500 = Return cs ->
  bulk_all cs (world st) = (Raise e, w) ->
  exists k st',
    (k < length cs)%nat
    /\ commit force st = (Raise e, st')
    /\ es_requests st' = es_requests st ++ take (S k) cs
    /\ TO_SEND st' = TO_SEND st.
Proof.
  intros Hne Hgo Hcs Hall.
  destruct (commit_raise force st cs e w Hne Hgo Hcs Hall)
    as (k & st' & Hk & Hrun & Hreq & Hkeep & _).
  by exists k, st'.
Qed.

(** X6.  Whatever the backend does, the bulk requests that one call of
    [commit] adds each carry between 1 and 500 operations, and together
    they are a leading part of the buffer, in order. *)
Theorem commit_request_sizes force st :
  exists new rest,
    es_requests (commit force st).2 = es_requests st ++ new
    /\ Forall (fun c => (1 <= length c <= 500)%nat) new
    /\ TO_SEND st = concat new ++ rest.
Proof.
  destruct (commit_cases force st)
    as [Hidle|[(cs & rs & w & Hne & Hcs & Hall & Hflush)
              |(cs & e & w & k & st2 & _ & Hcs & _ & Hk & Hraise & Hreq & _)]].
  - exists [], (TO_SEND st). rewrite Hidle. cbn [snd].
    by rewrite app_nil_r.
  - exists cs, []. rewrite Hflush. cbn [snd es_requests].
    split; [done|]. split; [by eapply chunks_sizes|].
    rewrite app_nil_r. symmetry. by eapply chunks_concat.
  - exists (take (S k) cs), (concat (drop (S k) cs)).
    rewrite Hraise. cbn [snd]. split; [done|]. split.
    + apply Forall_take. by eapply chunks_sizes.
    + rewrite <- concat_app, take_drop. symmetry. by eapply chunks_concat.
Qed.

(** X7.  A flush logs nothing beyond its INFO line exactly when every
    chunk's reported success count equals the chunk's size; a count that
    differs either way, above as well as below, is reported. *)
Theorem commit_clean_flush force st cs rs w :
  TO_SEND st <> [] ->
  force = true \/ (500 <= length (TO_SEND st))%nat ->
  chunks (TO_SEND st) 500 = Return cs ->
  bulk_all cs (world st) = (Return rs, w) ->
  LOG (commit force st).2 =
    LOG st ++ [mkLog INFO "commiting %i line(s) to ES..."
                     [ArgInt (Z.of_nat (length (TO_SEND st)))]]
  <-> Forall2 (fun c r => r.1 = Z.of_nat (length c)) cs rs.
Proof.
  intros Hne Hgo Hcs Hall.
  rewrite (commit_flush force st cs rs w Hne Hgo Hcs Hall). cbn [snd LOG].
  rewrite <- (reports_nil cs rs) by (by eapply bulk_all_length).
  split.
  - intros Heq. apply app_inv_head in Heq. by injection Heq.
  - by intros ->.
Qed.

End CommitFurther.
(** ** [process], beyond the claims *)

Lemma rstrip_cons c rest :
  isspace c = false -> rstrip (String c rest) = String c (rstrip rest).
Proof. intros Hc. simpl. destruct (rstrip rest); by rewrite ?Hc. Qed.

Lemma rstrip_idempotent s : rstrip (rstrip s) = rstrip s.
Proof.
  induction s as [|c s IH]; [done|]. simpl.
  destruct (rstrip s) as [|k kept] eqn:Hk.
  - destruct (isspace c) eqn:Hc; [done|]. simpl. by rewrite Hc.
  - change (rstrip (String c (String k kept)))
      with (match rstrip (String k kept) with
            | EmptyString =>
                if isspace c then EmptyString else String c EmptyString
            | String a b => String c (String a b)
            end).
    by rewrite IH.
Qed.

Lemma lstrip_strip s : lstrip (strip s) = strip s.
Proof.
  unfold strip. destruct (all_space s) eqn:Hall.
  - by rewrite (lstrip_all_space s Hall).
  - destruct (lstrip_head s Hall) as (c & rest & -> & Hc).
    rewrite rstrip_cons by done. simpl. by rewrite Hc.
Qed.

(** Stripping twice is stripping once. *)
Lemma strip_idempotent s : strip (strip s) = strip s.
Proof.
  unfold strip at 1. rewrite lstrip_strip. unfold strip.
  apply rstrip_idempotent.
Qed.

Section ProcessFurther.
Context {W : Type} `{!Libraries W}.
Implicit Types (st : state W) (transform_func index_func : hook W)
         (d : gmap string pyvalue).

(** X8.  What the transform hook's answer does to a decoded line, once the
    index hook has returned: [None] drops the line without a word; a value
    that is neither [None] nor a dict drops it with one WARNING naming the
    value's type; an exception leaves [process].  The buffer is untouched
    in all three cases. *)
Theorem process_transform_verdicts
        line transform_func index_func st d index d1 w1 :
  all_space line = false ->
  json_loads (strip line) = Some (PyDict d) ->
  index_func d (world st) = (Return index, d1, w1) ->
  (forall d2 w2,
     transform_func d1 w1 = (Return PyNone, d2, w2) ->
     process (Some line) transform_func index_func st =
       (Return false, mkState (TO_SEND st) (LOG st) (es_requests st) w2))
  /\ (forall v d2 w2,
        transform_func d1 w1 = (Return v, d2, w2) ->
        v <> PyNone -> isinstance_dict v = false ->
        process (Some line) transform_func index_func st =
          (Return false,
           mkState (TO_SEND st)
                   (LOG st ++
                      [mkLog WARNING
                         "the transformed function must return a dict (or None), got: %s"
                         [ArgType v]])
                   (es_requests st) w2))
  /\ (forall e d2 w2,
        transform_func d1 w1 = (Raise e, d2, w2) ->
        process (Some line) transform_func index_func st =
          (Raise e, mkState (TO_SEND st) (LOG st) (es_requests st) w2)).
Proof.
  intros Hall Hjson Hindex. split; [|split].
  - intros d2 w2 Ht. erewrite process_decoded by eassumption.
    by rewrite Hindex, Ht.
  - intros v d2 w2 Ht Hnone Hdict. erewrite process_decoded by eassumption.
    rewrite Hindex, Ht. by destruct v.
  - intros e d2 w2 Ht. erewrite process_decoded by eassumption.
    by rewrite Hindex, Ht.
Qed.

(** What [process] does to the buffer and to the list of requests. *)
Lemma process_effect line transform_func index_func st :
  let out := process line transform_func index_func st in
  es_requests out.2 = es_requests st
  /\ ((out.1 = Return true
       /\ exists op, TO_SEND out.2 = TO_SEND st ++ [op])
      \/ (out.1 <> Return true /\ TO_SEND out.2 = TO_SEND st)).
Proof.
  intros out. subst out. destruct line as [line|]; [|by auto].
  destruct (all_space line) eqn:Hall.
  { rewrite process_blank by done. by auto. }
  destruct (json_loads (strip line)) as [v|] eqn:Hjson; last first.
  { rewrite process_undecodable by done. by auto. }
  destruct (isinstance_dict v) eqn:Hv; last first.
  { erewrite process_not_a_dict by done. by auto. }
  destruct v as [| | | | | |d|]; try done.
  erewrite process_decoded by eassumption.
  destruct (index_func d (world st)) as [[[index|e] d1] w1]; [|by auto].
  destruct (transform_func d1 w1) as [[[transformed|e] d2] w2]; [|by auto].
  destruct transformed; cbn [fst snd TO_SEND es_requests];
    (split; [done|]); try (by right).
  left. split; [done|]. by eexists.
Qed.

(** X9.  [process] does no network I/O and is sparing with the log: for
    every line and hooks it leaves the list of backend requests as it
    was, logs nothing or a single WARNING record, and logs nothing when it
    returns [True]. *)
Theorem process_no_io line transform_func index_func st :
  let out := process line transform_func index_func st in
  es_requests out.2 = es_requests st
  /\ (LOG out.2 = LOG st
      \/ exists r, LOG out.2 = LOG st ++ [r] /\ levelname r = WARNING)
  /\ (out.1 = Return true -> LOG out.2 = LOG st).
Proof.
  intros out. subst out. destruct line as [line|]; [|by auto].
  destruct (all_space line) eqn:Hall.
  { rewrite process_blank by done. by auto. }
  destruct (json_loads (strip line)) as [v|] eqn:Hjson; last first.
  { rewrite process_undecodable by done. cbn [fst snd LOG es_requests].
    split; [done|]. split; [|done]. right. by eexists. }
  destruct (isinstance_dict v) eqn:Hv; last first.
  { erewrite process_not_a_dict by done. cbn [fst snd LOG es_requests].
    split; [done|]. split; [|done]. right. by eexists. }
  destruct v as [| | | | | |d|]; try done.
  erewrite process_decoded by eassumption.
  destruct (index_func d (world st)) as [[[index|e] d1] w1]; [|by auto].
  destruct (transform_func d1 w1) as [[[transformed|e] d2] w2]; [|by auto].
  destruct transformed; cbn [fst snd LOG es_requests];
    (split; [done|]); (split; [|done]); try (by left); right; by eexists.
Qed.

(** X10.  Whitespace around a line never matters: [process] treats a line
    and its stripped form alike, in result and in every effect. *)
Theorem process_strip_invariant line transform_func index_func st :
  process (Some line) transform_func index_func st =
  process (Some (strip line)) transform_func index_func st.
Proof. unfold process. by rewrite strip_idempotent. Qed.


End ProcessFurther.
(** ** The index router, beyond the claims *)

(** [add] depends on its datetime only through the instant and the
    [tzinfo]. *)
Lemma add_same_instant d1 d2 delta1 delta2 :
  Datetime.tzinfo d1 = Datetime.tzinfo d2 ->
  Datetime.to_microseconds d1 + delta1 = Datetime.to_microseconds d2 + delta2 ->
  Datetime.add d1 delta1 = Datetime.add d2 delta2.
Proof. intros Htz Hsum. unfold Datetime.add. by rewrite Htz, Hsum. Qed.

Section IndexFurther.
Context {W : Type} `{!Libraries W}.
Implicit Types (d : gmap string pyvalue) (w : W).

(** X12.  The index depends on the instant, not on the offset it was
    written with: two documents whose timestamps parse to the same UTC
    instant get the same outcome from [default_index_func]. *)
Theorem default_index_same_instant
        index_const_value d1 d2 w ts1 ts2 ref1 ref2 offset1 offset2 :
  d1 !! "@timestamp" = Some ts1 ->
  d2 !! "@timestamp" = Some ts2 ->
  dateutil_parse ts1 w = Return ref1 ->
  dateutil_parse ts2 w = Return ref2 ->
  Datetime.utcoffset ref1 = Some offset1 ->
  Datetime.utcoffset ref2 = Some offset2 ->
  Datetime.to_microseconds ref1 - offset1
    = Datetime.to_microseconds ref2 - offset2 ->
  (default_index_func index_const_value d1 w).1.1
    = (default_index_func index_const_value d2 w).1.1.
Proof.
  intros Hts1 Hts2 Hp1 Hp2 Ho1 Ho2 Hinstant. unfold default_index_func.
  rewrite Hts1, Hts2, Hp1, Hp2, Ho1, Ho2. unfold Datetime.sub.
  rewrite (add_same_instant
             (Datetime.replace_tzinfo ref1 Datetime.utc)
             (Datetime.replace_tzinfo ref2 Datetime.utc)
             (- offset1) (- offset2)); [|done|].
  - by destruct (Datetime.add _ _).
  - unfold Datetime.to_microseconds, Datetime.toordinal in *.
    cbn [Datetime.replace_tzinfo Datetime.year Datetime.month Datetime.day
         Datetime.hour Datetime.minute Datetime.second Datetime.microsecond].
    lia.
Qed.


(** X14.  A timestamp whose UTC instant lies before year 1 or after year
    9999 makes [default_index_func] raise [OverflowError]. *)
Theorem default_index_overflow index_const_value d w timestamp ref offset :
  d !! "@timestamp" = Some timestamp ->
  dateutil_parse timestamp w = Return ref ->
  Datetime.utcoffset ref = Some offset ->
  Datetime.to_microseconds ref - offset < Datetime.microseconds_per_day
  \/ (Datetime._MAXORDINAL + 1) * Datetime.microseconds_per_day
     <= Datetime.to_microseconds ref - offset ->
  default_index_func index_const_value d w = (Raise OverflowError, d, w).
Proof.
  intros Hts Hparse Hoff Hrange. unfold default_index_func.
  rewrite Hts, Hparse, Hoff. unfold Datetime.sub, Datetime.add. cbv zeta.
  replace (Datetime.to_microseconds (Datetime.replace_tzinfo ref Datetime.utc))
    with (Datetime.to_microseconds ref) by reflexivity.
  set (total := Datetime.to_microseconds ref + - offset).
  assert (Hout : (0 <? total / Datetime.microseconds_per_day)
                 && (total / Datetime.microseconds_per_day
                     <=? Datetime._MAXORDINAL) = false).
  { apply andb_false_iff. unfold Datetime.microseconds_per_day,
      Datetime._MAXORDINAL in *.
    destruct Hrange as [Hlow|Hhigh]; [left; apply Z.ltb_ge|right; apply Z.leb_gt];
      subst total; Z.to_euclidean_division_equations; lia. }
  by rewrite Hout.
Qed.

End IndexFurther.

(** ** Rotation detection, beyond the claim *)

(** X15.  While the open handle still has unread bytes (its position is
    below its size on disk) and is not flagged as a rotated file,
    [patched_is_new_file] returns [False], whether or not the path now
    leads to another inode: a replaced file is read to its end first. *)
Theorem rotation_waits_for_unread self inode2 :
  stat_filename_st_ino self = Return inode2 ->
  _rotated_logfile self = None \/ _rotated_logfile self = Some EmptyString ->
  filehandle_tell self < fstat_st_size self ->
  patched_is_new_file self = Return (PyBool false).
Proof.
  intros Hstat Hflag Hunread. unfold patched_is_new_file. rewrite Hstat.
  replace (filehandle_tell self =? fstat_st_size self) with false
    by (symmetry; apply Z.eqb_neq; lia).
  replace (fstat_st_size self <? filehandle_tell self) with false
    by (symmetry; apply Z.ltb_ge; lia).
  rewrite andb_false_r.
  by destruct Hflag as [-> | ->].
Qed.
(** ** [split] and [join] *)

Lemma split_nonempty sep s : split sep s <> [].
Proof.
  destruct s as [|c rest]; [done|]. simpl.
  destruct (Ascii.eqb c sep); [done|]. by destruct (split sep rest).
Qed.

Lemma split_cons_other sep c rest :
  Ascii.eqb c sep = false ->
  exists piece pieces,
    split sep rest = piece :: pieces
    /\ split sep (String c rest) = String c piece :: pieces.
Proof.
  intros Hc. simpl. rewrite Hc.
  destruct (split sep rest) as [|piece pieces] eqn:Hs.
  - by apply split_nonempty in Hs.
  - by exists piece, pieces.
Qed.

Lemma join_cons sep a b rest :
  join sep (a :: b :: rest) = String.app a (String.app sep (join sep (b :: rest))).
Proof. reflexivity. Qed.

(** Joining the pieces with the separator gives the text back. *)
Lemma join_split sep s : join (String sep EmptyString) (split sep s) = s.
Proof.
  induction s as [|c rest IH]; [done|].
  destruct (Ascii.eqb c sep) eqn:Hc.
  - cbn [split]. rewrite Hc. apply Ascii.eqb_eq in Hc as ->.
    destruct (split sep rest) as [|piece pieces] eqn:Hs.
    + by apply split_nonempty in Hs.
    + rewrite join_cons, IH. reflexivity.
  - destruct (split_cons_other sep c rest Hc) as (piece & pieces & Hs & ->).
    rewrite Hs in IH. destruct pieces as [|second pieces].
    + cbn [join] in *. by rewrite IH.
    + rewrite join_cons in *. rewrite <- IH. reflexivity.
Qed.

(** No piece holds the separator. *)
Lemma split_pieces sep s :
  Forall (fun piece => contains sep piece = false) (split sep s).
Proof.
  induction s as [|c rest IH]; [by repeat constructor|].
  destruct (Ascii.eqb c sep) eqn:Hc.
  - simpl. rewrite Hc. by constructor.
  - destruct (split_cons_other sep c rest Hc) as (piece & pieces & Hs & ->).
    rewrite Hs in IH. inversion IH as [|? ? Hpiece Hpieces]; subst.
    constructor; [|done]. simpl. by rewrite Hc.
Qed.

Lemma split_no_sep sep s : contains sep s = false -> split sep s = [s].
Proof.
  induction s as [|c rest IH]; [done|]. cbn [contains].
  intros Hno. apply orb_false_iff in Hno as [Hc Hrest].
  simpl. rewrite Hc, IH by done. reflexivity.
Qed.

Lemma split_with_sep sep s :
  contains sep s = true ->
  exists first second others, split sep s = first :: second :: others.
Proof.
  induction s as [|c rest IH]; [done|]. cbn [contains].
  destruct (Ascii.eqb c sep) eqn:Hc.
  - intros _. simpl. rewrite Hc.
    destruct (split sep rest) as [|piece pieces] eqn:Hs.
    + by apply split_nonempty in Hs.
    + by exists EmptyString, piece, pieces.
  - cbn [orb]. intros Hrest.
    destruct (IH Hrest) as (first & second & others & Hs).
    simpl. rewrite Hc, Hs. by exists (String c first), second, others.
Qed.

Lemma app_empty_inv (a b : string) :
  String.app a b = EmptyString -> a = EmptyString /\ b = EmptyString.
Proof. destruct a; [done|discriminate]. Qed.

Lemma split_app_sep sep a b :
  contains sep a = false ->
  split sep (String.app a (String sep b)) = a :: split sep b.
Proof.
  induction a as [|c a IH]; cbn [contains String.app].
  - intros _. simpl. by rewrite Ascii.eqb_refl.
  - intros Hno. apply orb_false_iff in Hno as [Hc Ha].
    simpl. rewrite Hc, IH by done. reflexivity.
Qed.

(** Splitting what was joined gives the pieces back, when there is at
    least one piece and no piece holds the separator. *)
Lemma split_join sep pieces :
  pieces <> [] ->
  Forall (fun piece => contains sep piece = false) pieces ->
  split sep (join (String sep EmptyString) pieces) = pieces.
Proof.
  induction pieces as [|piece rest IH]; [done|]. intros _ Hall.
  inversion Hall as [|? ? Hpiece Hrest]; subst.
  destruct rest as [|second rest].
  - cbn [join]. by apply split_no_sep.
  - rewrite join_cons.
    change (String.app (String sep EmptyString) ?x) with (String sep x).
    rewrite split_app_sep by done. f_equal. by apply IH.
Qed.

Lemma string_app_assoc (a b c : string) :
  String.app (String.app a b) c = String.app a (String.app b c).
Proof.
  unfold String.app. induction a as [|x a IH]; [done|].
  cbn [String.append]. f_equal. exact IH.
Qed.

Lemma join_snoc sep pieces piece :
  pieces <> [] ->
  join sep (pieces ++ [piece]) =
  String.app (join sep pieces) (String.app sep piece).
Proof.
  induction pieces as [|a rest IH]; [done|]. intros _.
  destruct rest as [|b rest]; [done|].
  change ((a :: b :: rest) ++ [piece]) with (a :: b :: (rest ++ [piece])).
  rewrite !join_cons.
  change (b :: rest ++ [piece]) with ((b :: rest) ++ [piece]).
  rewrite IH by done.
  by rewrite !string_app_assoc.
Qed.

(** ** Resolving the hooks *)

Lemma removelast_cons2 {A : Type} (a b : A) (l : list A) :
  removelast (a :: b :: l) = a :: removelast (b :: l).
Proof. reflexivity. Qed.

Lemma join_two_nonempty sep a b rest :
  join (String sep EmptyString) (a :: b :: rest) <> EmptyString.
Proof.
  rewrite join_cons. unfold String.app. intros Habs.
  destruct a; discriminate Habs.
Qed.

(** The module part of a path is empty exactly when the path has no dot,
    or a single dot that leads it. *)
Lemma module_path_empty func_path :
  module_path_of func_path = EmptyString
  <-> contains "." func_path = false
      \/ exists name,
           func_path = String "." name /\ contains "." name = false.
Proof.
  unfold module_path_of. split.
  - intros Hempty. destruct (contains "." func_path) eqn:Hdot; [|by left].
    right.
    destruct (split_with_sep _ _ Hdot) as (first & second & others & Hs).
    pose proof (join_split "." func_path) as Hjoin.
    pose proof (split_pieces "." func_path) as Hpieces.
    rewrite Hs in *. rewrite removelast_cons2 in Hempty.
    destruct others as [|third others].
    + cbn [removelast join] in Hempty. subst first.
      rewrite join_cons in Hjoin. cbn [join] in Hjoin.
      exists second. split; [by rewrite <- Hjoin|].
      by inversion Hpieces as [|? ? _ Hrest]; inversion Hrest.
    + rewrite removelast_cons2 in Hempty.
      by apply join_two_nonempty in Hempty.
  - intros [Hno|(name & -> & Hno)].
    + by rewrite split_no_sep.
    + cbn [split]. rewrite Ascii.eqb_refl, (split_no_sep _ _ Hno).
      reflexivity.
Qed.

Section ResolveFurther.
Context {W : Type} {Mod F : Type}.
Variable import_module : string -> result Mod.
Variable getattr : Mod -> string -> result F.
Implicit Types (st : state W).

(** X16.  [_get_func] ends the process with status 1 exactly when the
    path has no dot, or only a leading one, or ends with a closing
    parenthesis; it then logs a single ERROR record carrying the label.
    Any other path leaves the state alone and is handed to
    [importlib.import_module] and [getattr]. *)
Theorem _get_func_refuses func_label func_path st :
  let refused :=
    contains "." func_path = false
    \/ (exists name, func_path = String "." name /\ contains "." name = false)
    \/ endswith ")" func_path = true in
  let out := _get_func import_module getattr func_label func_path st in
  (refused ->
   out = (Exited 1,
          mkState (TO_SEND st)
                  (LOG st ++ [mkLog ERROR "%s must follow 'pkg.function_name'"
                                    [ArgStr func_label]])
                  (es_requests st) (world st)))
  /\ (~ refused ->
      out.2 = st
      /\ out.1 =
           match import_module (module_path_of func_path) with
           | Raise e => Raised e
           | Return loaded =>
               match getattr loaded (func_name_of func_path) with
               | Raise e => Raised e
               | Return f => Done f
               end
           end).
Proof.
  intros refused out. subst refused out. unfold _get_func.
  destruct (String.eqb (module_path_of func_path) EmptyString) eqn:Hmod.
  - split; [done|]. intros Hnot. exfalso. apply Hnot.
    apply String.eqb_eq, module_path_empty in Hmod. tauto.
  - assert (Hnonempty :
      ~ (contains "." func_path = false
         \/ exists name,
              func_path = String "." name /\ contains "." name = false)).
    { intros Habs. apply module_path_empty in Habs.
      apply String.eqb_neq in Hmod. done. }
    destruct (endswith ")" func_path) eqn:Hparen.
    + split; [done|]. intros Hnot. exfalso. apply Hnot. tauto.
    + split.
      * intros [?|[?|?]]; [tauto|tauto|done].
      * intros _.
        destruct (import_module _) as [loaded|e]; [|done].
        by destruct (getattr loaded _).
Qed.

End ResolveFurther.

(** X17.  For a path that holds a dot, the module part, a dot and the
    function name put together give the path back, and the function name
    holds no dot: the path is cut at its last dot.  A path without a dot
    is all function name. *)
Theorem func_path_round_trip func_path :
  (contains "." func_path = true ->
   String.app (module_path_of func_path)
              (String "." (func_name_of func_path)) = func_path)
  /\ contains "." (func_name_of func_path) = false
  /\ (contains "." func_path = false -> func_name_of func_path = func_path).
Proof.
  unfold module_path_of, func_name_of.
  pose proof (join_split "." func_path) as Hjoin.
  pose proof (split_pieces "." func_path) as Hpieces.
  pose proof (split_nonempty "." func_path) as Hne.
  split; [|split].
  - intros Hdot.
    destruct (split_with_sep _ _ Hdot) as (first & second & others & Hs).
    rewrite Hs in *.
    rewrite (app_removelast_last EmptyString Hne) in Hjoin at 1.
    rewrite join_snoc in Hjoin by (by rewrite removelast_cons2).
    exact Hjoin.
  - rewrite (app_removelast_last EmptyString Hne) in Hpieces.
    apply Forall_app in Hpieces as [_ Hlast].
    by inversion Hlast.
  - intros Hno. by rewrite split_no_sep.
Qed.

(** ** [setup.py] *)

Lemma startswith_dash_dash line :
  startswith "--" line = true -> startswith "-" line = true.
Proof.
  destruct line as [|c rest]; [done|]. cbn [startswith].
  intros H. apply andb_prop in H as [-> _]. reflexivity.
Qed.

Lemma keep_requirement_spec line :
  keep_requirement line = true
  <-> line <> EmptyString
      /\ startswith "-" line = false
      /\ contains ";" line = false.
Proof.
  unfold keep_requirement. split.
  - intros H. repeat (apply andb_prop in H as [H ?]).
    repeat split; try by apply negb_true_iff.
    intros ->. discriminate H.
  - intros (Hne & Hdash & Hsemi). rewrite Hdash, Hsemi.
    destruct (startswith "--" line) eqn:Hdd.
    { apply startswith_dash_dash in Hdd. congruence. }
    destruct line; [done|reflexivity].
Qed.

(** X18.  [install_requires] holds exactly the lines of the requirements
    file that are not empty, do not start with a dash and hold no
    semicolon; the separate test for a leading double dash changes
    nothing.  No entry holds a line feed. *)
Theorem install_requires_spec requirements_txt r :
  In r (install_requires requirements_txt)
  <-> In r (split LF requirements_txt)
      /\ r <> EmptyString
      /\ startswith "-" r = false
      /\ contains ";" r = false
      /\ contains LF r = false.
Proof.
  unfold install_requires. rewrite filter_In, keep_requirement_spec.
  pose proof (split_pieces LF requirements_txt) as Hpieces.
  rewrite List.Forall_forall in Hpieces.
  split.
  - intros (Hin & Hne & Hdash & Hsemi). repeat split; auto.
  - intros (Hin & Hne & Hdash & Hsemi & _). repeat split; auto.
Qed.

Lemma filter_all {A : Type} (f : A -> bool) (l : list A) :
  Forall (fun x => f x = true) l -> List.filter f l = l.
Proof.
  induction 1 as [|x l Hx _ IH]; [done|]. simpl. by rewrite Hx, IH.
Qed.

(** X19.  A requirements file made of plain requirement lines, with or
    without a final line feed, comes back whole and in order. *)
Theorem install_requires_plain reqs :
  Forall (fun r => r <> EmptyString
                   /\ startswith "-" r = false
                   /\ contains ";" r = false
                   /\ contains LF r = false) reqs ->
  install_requires (join (String LF EmptyString) reqs) = reqs
  /\ install_requires
       (String.app (join (String LF EmptyString) reqs) (String LF EmptyString))
     = reqs.
Proof.
  intros Hplain.
  assert (Hkeep : Forall (fun r => keep_requirement r = true) reqs).
  { eapply Forall_impl; [exact Hplain|]. intros r (? & ? & ? & _).
    by apply keep_requirement_spec. }
  assert (Hsep : Forall (fun r => contains LF r = false) reqs).
  { eapply Forall_impl; [exact Hplain|]. by intros r (_ & _ & _ & ?). }
  unfold install_requires. destruct reqs as [|r reqs]; [done|]. split.
  - rewrite split_join by done. by apply filter_all.
  - assert (Htext :
      String.app (join (String LF EmptyString) (r :: reqs)) (String LF EmptyString)
      = join (String LF EmptyString) ((r :: reqs) ++ [EmptyString]))
      by (by rewrite join_snoc).
    rewrite Htext.
    rewrite split_join; [|by destruct reqs|].
    + rewrite List.filter_app, filter_all by done. cbn. by rewrite app_nil_r.
    + apply Forall_app. split; [done|]. by repeat constructor.
Qed.

(** ** The run loop *)

Section RunLoopProperties.
Context {W : Type} `{!Libraries W}.
Implicit Types (d : daemon W) (st : state W) (p : pass)
         (transform_func index_func : hook W).

Lemma on_globals_eq {A : Type} (c : M W A) d r st' :
  c (globals d) = (r, st') ->
  on_globals c d = (r, mkDaemon st' (RUNNING d) (touched d) (slept d)).
Proof. intros Hc. unfold on_globals. by rewrite Hc. Qed.

Lemma signal_handler_eq signum d :
  signal_handler signum d =
    (Return tt,
     mkDaemon (mkState (TO_SEND (globals d))
                       (LOG (globals d)
                          ++ [mkLog INFO "Signal: %i handled" [ArgInt signum]])
                       (es_requests (globals d)) (world (globals d)))
              false (touched d) (slept d)).
Proof. reflexivity. Qed.

Lemma touch_eq filepath d :
  touch filepath d =
    (Return tt,
     mkDaemon (mkState (TO_SEND (globals d))
                       (LOG (globals d)
                          ++ [mkLog INFO
                                "The file: %s does not exist => let's touch it"
                                [ArgStr filepath]])
                       (es_requests (globals d)) (world (globals d)))
              (RUNNING d) (touched d ++ [filepath]) (slept d)).
Proof. reflexivity. Qed.

(** One event of the tail, as [drain] handles it. *)
Lemma drain_cons LOG_PATH transform_func index_func ev evs ending d :
  drain LOG_PATH transform_func index_func (ev :: evs) ending d =
    match ev with
    | Line line =>
        match process line transform_func index_func (globals d) with
        | (Return true, st1) =>
            match commit false st1 with
            | (Return _, st2) =>
                drain LOG_PATH transform_func index_func evs ending
                      (mkDaemon st2 (RUNNING d) (touched d) (slept d))
            | (Raise e, st2) =>
                (Raise e, mkDaemon st2 (RUNNING d) (touched d) (slept d))
            end
        | (Return false, st1) =>
            drain LOG_PATH transform_func index_func evs ending
                  (mkDaemon st1 (RUNNING d) (touched d) (slept d))
        | (Raise e, st1) =>
            (Raise e, mkDaemon st1 (RUNNING d) (touched d) (slept d))
        end
    | Signal signum =>
        drain LOG_PATH transform_func index_func evs ending
              (signal_handler signum d).2
    end.
Proof.
  destruct ev as [line|signum]; cbn [drain]; unfold dbind at 1.
  - unfold on_globals at 1.
    destruct (process line transform_func index_func (globals d))
      as [[[|]|e] st1]; [| |done].
    + unfold dbind at 1 2. unfold on_globals at 1.
      cbn [globals RUNNING touched slept].
      by destruct (commit false st1) as [[b|e] st2].
    + by unfold dbind at 1.
  - by rewrite signal_handler_eq.
Qed.

(** [RUNNING], once cleared, stays cleared, and [drain] clears it when it
    gets past a signal. *)
Lemma drain_running LOG_PATH transform_func index_func evs ending :
  forall d r d',
    drain LOG_PATH transform_func index_func evs ending d = (r, d') ->
    (RUNNING d = false -> RUNNING d' = false)
    /\ (r = Return tt -> (exists signum, In (Signal signum) evs) ->
        RUNNING d' = false)
    /\ slept d' = slept d.
Proof.
  induction evs as [|ev evs IH]; intros d r d' Hrun.
  - cbn [drain] in Hrun. destruct ending.
    + injection Hrun as <- <-. split; [done|]. split; [|done].
      by intros _ [? []].
    + rewrite touch_eq in Hrun. injection Hrun as <- <-.
      split; [done|]. split; [|done]. by intros _ [? []].
  - rewrite drain_cons in Hrun. destruct ev as [line|signum].
    + assert (Hline : forall n, In (Signal n) (Line line :: evs)
                                -> In (Signal n) evs)
        by (by intros n [?|?]).
      destruct (process line transform_func index_func (globals d))
        as [[[|]|e] st1].
      * destruct (commit false st1) as [[b|e] st2].
        -- apply IH in Hrun as (Hoff & Hsig & Hslept).
           cbn [RUNNING slept] in *. split; [done|]. split; [|done].
           intros Hr [n Hn]. apply Hsig; eauto.
        -- injection Hrun as <- <-. cbn [RUNNING slept]. by repeat split.
      * apply IH in Hrun as (Hoff & Hsig & Hslept).
        cbn [RUNNING slept] in *. split; [done|]. split; [|done].
        intros Hr [n Hn]. apply Hsig; eauto.
      * injection Hrun as <- <-. cbn [RUNNING slept]. by repeat split.
    + apply IH in Hrun as (Hoff & Hsig & Hslept).
      rewrite signal_handler_eq in *. cbn [snd RUNNING slept] in *.
      split; [by intros _; apply Hoff|]. split; [|done].
      intros _ _. by apply Hoff.
Qed.

Lemma handle_all_eq signums : forall d,
  exists records,
    handle_all signums d =
      (Return tt,
       mkDaemon (mkState (TO_SEND (globals d)) (LOG (globals d) ++ records)
                         (es_requests (globals d)) (world (globals d)))
                (RUNNING d && match signums with [] => true | _ => false end)
                (touched d) (slept d)).
Proof.
  induction signums as [|signum rest IH]; intros d.
  - exists []. cbn [handle_all]. unfold dret. rewrite app_nil_r, andb_true_r.
    by destruct d as [[] ? ? ?].
  - cbn [handle_all]. unfold dbind. rewrite signal_handler_eq.
    destruct (IH (mkDaemon
                    (mkState (TO_SEND (globals d))
                             (LOG (globals d)
                                ++ [mkLog INFO "Signal: %i handled"
                                          [ArgInt signum]])
                             (es_requests (globals d)) (world (globals d)))
                    false (touched d) (slept d))) as [records ->].
    cbn [globals TO_SEND LOG es_requests world RUNNING touched slept andb].
    eexists. rewrite <- app_assoc, andb_false_r. reflexivity.
Qed.

(** A forced commit that returns leaves nothing pending. *)
Lemma commit_forced_empty st b st' :
  commit true st = (Return b, st') -> TO_SEND st' = [].
Proof.
  intros Hrun.
  destruct (commit_cases true st)
    as [Hidle|[(cs & rs & w & _ & _ & _ & Hflush)
              |(cs & e & w & k & st2 & _ & _ & _ & _ & Hraise & _)]].
  - rewrite Hidle in Hrun. injection Hrun as <- <-.
    rewrite commit_unfold in Hidle. cbn [negb andb] in Hidle.
    destruct (TO_SEND st) as [|a buffer] eqn:Hbuf; [done|].
    cbn [length Nat.eqb] in Hidle. cbv zeta in Hidle.
    destruct (chunks (a :: buffer) 500) as [cs|e]; [|done].
    by destruct (for_each cs _ _) as [[[]|e] st2].
  - rewrite Hflush in Hrun. by injection Hrun as <- <-.
  - rewrite Hraise in Hrun. discriminate.
Qed.

(** One turn of the loop, unfolded down to its steps. *)
Lemma iteration_eq LOG_PATH transform_func index_func p d :
  iteration LOG_PATH transform_func index_func p d =
    match drain LOG_PATH transform_func index_func (events p) (stop p) d with
    | (Raise e, d1) => (Raise e, d1)
    | (Return _, d1) =>
        match commit true (globals d1) with
        | (Raise e, st2) =>
            (Raise e, mkDaemon st2 (RUNNING d1) (touched d1) (slept d1))
        | (Return _, st2) =>
            dbind (handle_all (during_sleep p))
                  (fun _ => sleep SLEEP_AFTER_EACH_ITERATION)
                  (mkDaemon
                     (mkState (TO_SEND st2)
                              (LOG st2 ++ [mkLog DEBUG "sleeping %i seconds..."
                                                 [ArgInt SLEEP_AFTER_EACH_ITERATION]])
                              (es_requests st2) (world st2))
                     (RUNNING d1) (touched d1) (slept d1))
        end
    end.
Proof.
  unfold iteration. unfold dbind at 1.
  destruct (drain _ _ _ _ _ d) as [[[]|e] d1]; [|done].
  unfold dbind at 1. unfold on_globals at 1.
  destruct (commit true (globals d1)) as [[b|e] st2]; [|done].
  unfold dbind at 1. reflexivity.
Qed.

End RunLoopProperties.

Section RunLoopFurther.
Context {W : Type} `{!Libraries W}.
Implicit Types (d : daemon W) (st : state W) (p : pass)
         (transform_func index_func : hook W).

(** Draining keeps the buffer within the threshold and hands over full
    chunks only. *)
Lemma drain_bounded LOG_PATH transform_func index_func evs ending :
  forall d r d',
    (length (TO_SEND (globals d)) < 500)%nat ->
    drain LOG_PATH transform_func index_func evs ending d = (r, d') ->
    (length (TO_SEND (globals d')) <= 500)%nat
    /\ (r = Return tt -> (length (TO_SEND (globals d')) < 500)%nat)
    /\ exists full,
         es_requests (globals d') = es_requests (globals d) ++ full
         /\ Forall (fun c => length c = 500%nat) full.
Proof.
  induction evs as [|ev evs IH]; intros d r d' Hlt Hrun.
  - cbn [drain] in Hrun. destruct ending.
    + injection Hrun as <- <-. split; [lia|]. split; [done|].
      exists []. by rewrite app_nil_r.
    + rewrite touch_eq in Hrun. injection Hrun as <- <-.
      cbn [globals TO_SEND es_requests]. split; [lia|]. split; [done|].
      exists []. by rewrite app_nil_r.
  - rewrite drain_cons in Hrun. destruct ev as [line|signum].
    + pose proof (process_effect line transform_func index_func (globals d))
        as [Hreq Hbuf]. cbv zeta in Hreq, Hbuf.
      destruct (process line transform_func index_func (globals d))
        as [[[|]|e] st1]; cbn [fst snd] in *.
      * destruct Hbuf as [[_ [op Hop]]|[Habs _]]; [|done].
        assert (Hlen1 : (length (TO_SEND st1) <= 500)%nat)
          by (rewrite Hop, length_app; simpl; lia).
        destruct (decide (length (TO_SEND st1) = 500%nat)) as [Hfull|Hnot].
        -- destruct (commit_single false st1 ltac:(lia) ltac:(by right))
             as [(rs & w & Hc)|(e & st2 & Hc & Hreq2 & Hkeep)];
             rewrite Hc in Hrun.
           ++ eapply IH in Hrun as (Hle & Hret & full & Hfullreq & Hall);
                [|cbn [globals TO_SEND]; simpl; lia].
              cbn [globals TO_SEND es_requests] in *.
              split; [done|]. split; [done|].
              exists (TO_SEND st1 :: full). split.
              ** rewrite Hfullreq, Hreq, <- app_assoc. reflexivity.
              ** by constructor.
           ++ injection Hrun as <- <-. cbn [globals]. rewrite Hkeep.
              split; [lia|]. split; [done|].
              exists [TO_SEND st1]. split; [by rewrite Hreq2, Hreq|].
              by repeat constructor.
        -- rewrite commit_below_threshold in Hrun by lia.
           eapply IH in Hrun as (Hle & Hret & full & Hfullreq & Hall);
             [|cbn [globals]; lia].
           cbn [globals] in *. split; [done|]. split; [done|].
           exists full. by rewrite Hfullreq, Hreq.
      * destruct Hbuf as [[Habs _]|[_ Hsame]]; [done|].
        eapply IH in Hrun as (Hle & Hret & full & Hfullreq & Hall);
          [|cbn [globals]; rewrite Hsame; lia].
        cbn [globals] in *. split; [done|]. split; [done|].
        exists full. by rewrite Hfullreq, Hreq.
      * destruct Hbuf as [[Habs _]|[_ Hsame]]; [done|].
        injection Hrun as <- <-. cbn [globals]. rewrite Hsame.
        split; [lia|]. split; [done|].
        exists []. by rewrite app_nil_r, Hreq.
    + eapply IH in Hrun; [|by rewrite signal_handler_eq].
      by rewrite signal_handler_eq in Hrun.
Qed.

(** Draining hands over or keeps every operation it produces, in order. *)
Lemma drain_delivers LOG_PATH transform_func index_func evs ending :
  forall d d',
    drain LOG_PATH transform_func index_func evs ending d = (Return tt, d') ->
    exists new,
      concat (es_requests (globals d')) ++ TO_SEND (globals d') =
      (concat (es_requests (globals d)) ++ TO_SEND (globals d)) ++ new
      /\ (length new <= length evs)%nat.
Proof.
  induction evs as [|ev evs IH]; intros d d' Hrun.
  - exists []. rewrite app_nil_r. split; [|done].
    cbn [drain] in Hrun. destruct ending.
    + by injection Hrun as <-.
    + rewrite touch_eq in Hrun. by injection Hrun as <-.
  - rewrite drain_cons in Hrun. destruct ev as [line|signum].
    + pose proof (process_effect line transform_func index_func (globals d))
        as [Hreq Hbuf]. cbv zeta in Hreq, Hbuf.
      destruct (process line transform_func index_func (globals d))
        as [[[|]|e] st1]; cbn [fst snd] in *; [| |done].
      * destruct Hbuf as [[_ [op Hop]]|[Habs _]]; [|done].
        destruct (commit false st1) as [[b|e] st2] eqn:Hc; [|done].
        apply commit_delivered in Hc.
        apply IH in Hrun as (new & Hnew & Hcount). cbn [globals] in Hnew.
        exists (op :: new). split; [|simpl; lia].
        rewrite Hnew, Hc, Hreq, Hop, <- !app_assoc. reflexivity.
      * destruct Hbuf as [[Habs _]|[_ Hsame]]; [done|].
        apply IH in Hrun as (new & Hnew & Hcount). cbn [globals] in Hnew.
        exists new. split; [|simpl; lia].
        by rewrite Hnew, Hreq, Hsame.
    + apply IH in Hrun as (new & Hnew & Hcount).
      rewrite signal_handler_eq in Hnew. cbn [snd globals] in Hnew.
      exists new. split; [done|simpl; lia].
Qed.

Lemma drain_touched LOG_PATH transform_func index_func evs ending :
  forall d d',
    drain LOG_PATH transform_func index_func evs ending d = (Return tt, d') ->
    touched d' =
      touched d ++ match ending with
                   | StopIteration => []
                   | FileNotFound => [LOG_PATH]
                   end.
Proof.
  induction evs as [|ev evs IH]; intros d d' Hrun.
  - cbn [drain] in Hrun. destruct ending.
    + injection Hrun as <-. by rewrite app_nil_r.
    + rewrite touch_eq in Hrun. by injection Hrun as <-.
  - rewrite drain_cons in Hrun. destruct ev as [line|signum].
    + destruct (process line transform_func index_func (globals d))
        as [[[|]|e] st1]; [| |done].
      * destruct (commit false st1) as [[b|e] st2]; [|done].
        by apply IH in Hrun.
      * by apply IH in Hrun.
    + apply IH in Hrun. by rewrite signal_handler_eq in Hrun.
Qed.

(** A turn of the loop that returns, in terms of its drain and its forced
    commit. *)
Lemma iteration_returns LOG_PATH transform_func index_func p d d' :
  iteration LOG_PATH transform_func index_func p d = (Return tt, d') ->
  exists d1 b st2 records,
    drain LOG_PATH transform_func index_func (events p) (stop p) d
      = (Return tt, d1)
    /\ commit true (globals d1) = (Return b, st2)
    /\ d' = mkDaemon
              (mkState (TO_SEND st2) (LOG st2 ++ records)
                       (es_requests st2) (world st2))
              (RUNNING d1 && match during_sleep p with
                             | [] => true
                             | _ => false
                             end)
              (touched d1) (slept d1 + SLEEP_AFTER_EACH_ITERATION).
Proof.
  rewrite iteration_eq.
  destruct (drain _ _ _ _ _ d) as [[[]|e] d1] eqn:Hdrain; [|done].
  destruct (commit true (globals d1)) as [[b|e] st2] eqn:Hcommit; [|done].
  unfold dbind.
  match goal with |- context [handle_all _ ?d0] =>
    destruct (handle_all_eq (during_sleep p) d0) as [records ->]
  end.
  unfold sleep. cbn [globals TO_SEND LOG es_requests world RUNNING touched slept].
  intros [= <-]. exists d1, b, st2. eexists.
  split; [done|]. split; [done|]. by rewrite <- app_assoc.
Qed.

Lemma main_loop_stopped LOG_PATH transform_func index_func passes d :
  RUNNING d = false ->
  main_loop LOG_PATH transform_func index_func passes d =
  on_globals (log INFO "exited" []) d.
Proof. intros Hoff. destruct passes; cbn [main_loop]; by rewrite Hoff. Qed.

(** X20.  Once a signal has been handled during a pass, that pass is the
    last one: it is finished, forced commit and sleep included, and
    nothing that the tail would have yielded afterwards is read. *)
Theorem shutdown_after_signal
        LOG_PATH transform_func index_func before p after d :
  (exists signum, In (Signal signum) (events p) \/ In signum (during_sleep p)) ->
  main_loop LOG_PATH transform_func index_func (before ++ p :: after) d =
  main_loop LOG_PATH transform_func index_func (before ++ [p]) d.
Proof.
  intros Hsignal. revert d.
  induction before as [|q before IH]; intros d.
  - cbn [app main_loop]. destruct (RUNNING d); [|done].
    unfold dbind.
    destruct (iteration LOG_PATH transform_func index_func p d)
      as [[[]|e] d'] eqn:Hiter; [|done].
    assert (Hoff : RUNNING d' = false).
    { apply iteration_returns in Hiter
        as (d1 & b & st2 & records & Hdrain & _ & ->). cbn [RUNNING].
      destruct Hsignal as [signum [Hev|Hlate]].
      - apply drain_running in Hdrain as (_ & Hsig & _).
        rewrite Hsig by eauto. reflexivity.
      - destruct (during_sleep p); [done|apply andb_false_r]. }
    rewrite (main_loop_stopped _ _ _ _ _ Hoff). by rewrite Hoff.
  - cbn [app main_loop]. destruct (RUNNING d); [|done].
    unfold dbind.
    by destruct (iteration LOG_PATH transform_func index_func q d)
      as [[[]|e] d'].
Qed.

(** X21.  A turn of the loop that returns leaves nothing pending, has
    slept 3 seconds, and has touched the watched path once if the tail
    reported it missing and not at all otherwise. *)
Theorem iteration_finishes LOG_PATH transform_func index_func p d d' :
  iteration LOG_PATH transform_func index_func p d = (Return tt, d') ->
  TO_SEND (globals d') = []
  /\ slept d' = slept d + 3
  /\ touched d' =
       touched d ++ match stop p with
                    | StopIteration => []
                    | FileNotFound => [LOG_PATH]
                    end.
Proof.
  intros Hiter.
  apply iteration_returns in Hiter
    as (d1 & b & st2 & records & Hdrain & Hcommit & ->).
  cbn [globals TO_SEND slept touched].
  split; [by eapply commit_forced_empty|].
  split.
  - apply drain_running in Hdrain as (_ & _ & ->). reflexivity.
  - by eapply drain_touched.
Qed.

(** X22.  While draining, the buffer never ends a step above the
    threshold: starting below 500 operations it holds at most 500 when
    [drain] stops, fewer than 500 when [drain] returns, and every bulk
    request made on the way carries exactly 500 operations. *)
Theorem drain_buffer_bound
        LOG_PATH transform_func index_func evs ending d :
  (length (TO_SEND (globals d)) < 500)%nat ->
  let out := drain LOG_PATH transform_func index_func evs ending d in
  (length (TO_SEND (globals out.2)) <= 500)%nat
  /\ (out.1 = Return tt -> (length (TO_SEND (globals out.2)) < 500)%nat)
  /\ exists full,
       es_requests (globals out.2) = es_requests (globals d) ++ full
       /\ Forall (fun c => length c = 500%nat) full.
Proof.
  intros Hlt out. subst out.
  destruct (drain LOG_PATH transform_func index_func evs ending d)
    as [r d'] eqn:Hrun.
  by eapply drain_bounded.
Qed.

(** X23.  The bulk requests of a turn that returns, started with fewer
    than 500 operations pending: any number of requests of exactly 500
    operations, followed by at most one more that carries between 1 and
    499. *)
Theorem iteration_request_sizes
        LOG_PATH transform_func index_func p d d' :
  (length (TO_SEND (globals d)) < 500)%nat ->
  iteration LOG_PATH transform_func index_func p d = (Return tt, d') ->
  exists full tail,
    es_requests (globals d') = es_requests (globals d) ++ full ++ tail
    /\ Forall (fun c => length c = 500%nat) full
    /\ (tail = [] \/ exists c, tail = [c] /\ (1 <= length c < 500)%nat).
Proof.
  intros Hlt Hiter.
  apply iteration_returns in Hiter
    as (d1 & b & st2 & records & Hdrain & Hcommit & ->).
  eapply drain_bounded in Hdrain as (_ & Hbelow & full & Hreq & Hfull);
    [|done].
  specialize (Hbelow eq_refl). cbn [globals es_requests].
  exists full. destruct (TO_SEND (globals d1)) as [|a buffer] eqn:Hbuf.
  - exists []. split; [|by auto].
    rewrite commit_unfold, Hbuf in Hcommit. cbn in Hcommit.
    injection Hcommit as _ <-. by rewrite app_nil_r.
  - exists [TO_SEND (globals d1)]. split; [|split; [done|]].
    + destruct (commit_single true (globals d1)) as
        [(rs & w & Hc)|(e & st' & Hc & _)];
        [rewrite Hbuf; simpl in *; lia|by left| |];
        rewrite Hc in Hcommit; [|done].
      injection Hcommit as _ <-. cbn [es_requests].
      by rewrite Hreq, <- app_assoc.
    + right. eexists. split; [done|]. rewrite Hbuf in *. simpl in *. lia.
Qed.

(** X24.  A turn of the loop that returns has handed to the backend, in
    order and once each, everything that was handed over or pending
    before, followed by the operations it produced itself, at most one
    per event of the tail. *)
Theorem iteration_delivers LOG_PATH transform_func index_func p d d' :
  iteration LOG_PATH transform_func index_func p d = (Return tt, d') ->
  exists new,
    concat (es_requests (globals d')) =
      concat (es_requests (globals d)) ++ TO_SEND (globals d) ++ new
    /\ (length new <= length (events p))%nat.
Proof.
  intros Hiter.
  apply iteration_returns in Hiter
    as (d1 & b & st2 & records & Hdrain & Hcommit & ->).
  apply drain_delivers in Hdrain as (new & Hnew & Hcount).
  pose proof (commit_forced_empty _ _ _ Hcommit) as Hempty.
  apply commit_delivered in Hcommit.
  rewrite Hempty, app_nil_r in Hcommit.
  exists new. split; [|done]. cbn [globals es_requests].
  by rewrite Hcommit, Hnew, <- app_assoc.
Qed.

End RunLoopFurther.

(** ** Signals and the pipeline *)

Section Signals.
Context {W : Type} `{!Libraries W}.
Implicit Types (d : daemon W) (st : state W)
         (transform_func index_func : hook W).

Local Abbreviation post_chunk :=
  (fun chunk : list action =>
     bind (helpers_bulk chunk) (fun '(success, errors) =>
       if negb (success =? Z.of_nat (length chunk)) then
         bind (log WARNING "can't post %i lines to ES"
                   [ArgInt (Z.of_nat (length chunk) - success)])
              (fun _ => log DEBUG "raw output: %s" [ArgValue (PyList errors)])
       else ret tt)).

(** [process] does not read the log: on two states that differ in their
    log only, it gives the same result and again two such states. *)
Lemma process_same_but_log line transform_func index_func st1 st2 :
  same_but_log st1 st2 ->
  (process line transform_func index_func st1).1
    = (process line transform_func index_func st2).1
  /\ same_but_log (process line transform_func index_func st1).2
                  (process line transform_func index_func st2).2.
Proof.
  intros (Hbuf & Hreq & Hw). destruct line as [line|]; [|done].
  destruct (all_space line) eqn:Hall.
  { by rewrite !process_blank. }
  destruct (json_loads (strip line)) as [v|] eqn:Hjson; last first.
  { by rewrite !process_undecodable. }
  destruct (isinstance_dict v) eqn:Hv; last first.
  { by erewrite !process_not_a_dict. }
  destruct v as [| | | | | |doc|]; try done.
  erewrite !process_decoded by eassumption. rewrite <- Hw.
  destruct (index_func doc (world st1)) as [[[index|e] d1] w1]; [|done].
  destruct (transform_func d1 w1) as [[[transformed|e] d2] w2]; [|done].
  destruct transformed; try done.
  split; [done|]. unfold same_but_log. cbn [snd TO_SEND es_requests world].
  by rewrite Hbuf.
Qed.

(** Neither does a commit that returns. *)
Lemma commit_same_but_log force st1 st2 b st1' :
  same_but_log st1 st2 ->
  commit force st1 = (Return b, st1') ->
  exists st2', commit force st2 = (Return b, st2') /\ same_but_log st1' st2'.
Proof.
  intros (Hbuf & Hreq & Hw). rewrite !commit_unfold, <- Hbuf.
  destruct (negb force && _).
  { intros [= <- <-]. by eexists. }
  destruct (_ =? _)%nat.
  { intros [= <- <-]. by eexists. }
  cbv zeta. destruct (chunks (TO_SEND st1) 500) as [cs|e]; [|done].
  match goal with |- context [for_each cs ?body ?s] => set (s1 := s) end.
  match goal with |- context [for_each cs _ ?s] =>
    lazymatch s with s1 => fail | _ => set (s2 := s) end end.
  destruct (bulk_all cs (world s1)) as [[rs|e] w] eqn:Hall.
  - rewrite (flush_loop cs s1 rs w Hall).
    rewrite (flush_loop cs s2 rs w) by (subst s1 s2; cbn [world] in *; by rewrite <- Hw).
    intros [= <- <-]. eexists. split; [reflexivity|].
    unfold same_but_log. subst s1 s2. cbn [TO_SEND es_requests world].
    by rewrite Hreq.
  - destruct (flush_loop_raise cs s1 e w Hall) as (st' & -> & _). done.
Qed.

(** X25.  Handling signals leaves the data path alone: a drain that
    returns would, with its signals taken out, return as well, with the
    same buffer, the same bulk requests, the same world and the same
    touched paths; only the log and [RUNNING] can differ. *)
Theorem signals_leave_pipeline_alone
        LOG_PATH transform_func index_func evs ending d d' :
  drain LOG_PATH transform_func index_func evs ending d = (Return tt, d') ->
  exists d'',
    drain LOG_PATH transform_func index_func (lines_only evs) ending d
      = (Return tt, d'')
    /\ same_but_log (globals d') (globals d'')
    /\ touched d' = touched d''.
Proof.
  assert (Hgen : forall d1 d2 d1',
    same_but_log (globals d1) (globals d2) -> touched d1 = touched d2 ->
    drain LOG_PATH transform_func index_func evs ending d1 = (Return tt, d1') ->
    exists d2',
      drain LOG_PATH transform_func index_func (lines_only evs) ending d2
        = (Return tt, d2')
      /\ same_but_log (globals d1') (globals d2')
      /\ touched d1' = touched d2').
  { clear d d'. induction evs as [|ev evs IH]; intros d1 d2 d1' Hsim Htouched Hrun.
    - cbn [lines_only List.filter drain] in *. destruct ending.
      + injection Hrun as <-. by exists d2.
      + rewrite touch_eq in *. injection Hrun as <-. eexists.
        split; [reflexivity|]. cbn [globals touched].
        split; [|by rewrite Htouched].
        destruct Hsim as (? & ? & ?). by repeat split.
    - rewrite drain_cons in Hrun. destruct ev as [line|signum].
      + cbn [lines_only List.filter]. fold (lines_only evs).
        rewrite drain_cons.
        pose proof (process_same_but_log line transform_func index_func
                      _ _ Hsim) as [Hres Hsim1].
        destruct (process line transform_func index_func (globals d1))
          as [[[|]|e] st1]; [| |done];
          destruct (process line transform_func index_func (globals d2))
            as [r2 st2]; cbn [fst snd] in *; subst r2.
        * destruct (commit false st1) as [[b|e] st1'] eqn:Hc; [|done].
          destruct (commit_same_but_log _ _ _ _ _ Hsim1 Hc)
            as (st2' & -> & Hsim2).
          eapply IH in Hrun; [exact Hrun|done|done].
        * eapply IH in Hrun; [exact Hrun|done|done].
      + cbn [lines_only List.filter]. fold (lines_only evs).
        eapply IH in Hrun; [exact Hrun| |].
        * rewrite signal_handler_eq. cbn [snd globals].
          destruct Hsim as (? & ? & ?). by repeat split.
        * by rewrite signal_handler_eq. }
  intros Hrun. by eapply Hgen.
Qed.

End Signals.

(** ** The further statements at work on the reference instance *)

Lemma chunks_partition_witness :
  exists cs,
    chunks [1; 2; 3; 4; 5]%nat 2 = Return cs
    /\ concat cs = [1; 2; 3; 4; 5]%nat
    /\ length cs = 3%nat.
Proof.
  destruct (chunks_partition [1; 2; 3; 4; 5]%nat 2 ltac:(lia))
    as (cs & Hcs & Hcat & _ & _ & Hlen).
  exists cs. repeat split; assumption.
Defined.

Lemma chunks_edges_witness :
  chunks [1; 2; 3]%nat 0 = Raise ValueError
  /\ chunks (@nil nat) 4 = Return []
  /\ chunks [1; 2; 3]%nat 4 = Return [[1; 2; 3]%nat].
Proof.
  split; [|split].
  - apply (proj1 (chunks_edges [1; 2; 3]%nat 0)).
  - apply (proj1 (proj2 (chunks_edges (@nil nat) 4))). lia.
  - apply (proj2 (proj2 (chunks_edges [1; 2; 3]%nat 4))). simpl. lia.
Defined.

Lemma commit_conserves_witness :
  concat (es_requests (commit true (Reference.pending 3 500)).2)
    ++ TO_SEND (commit true (Reference.pending 3 500)).2
  = concat (es_requests (Reference.pending 3 500))
    ++ TO_SEND (Reference.pending 3 500).
Proof.
  apply (commit_conserves true (Reference.pending 3 500) true).
  vm_compute. reflexivity.
Defined.

Lemma commit_twice_witness :
  commit false (commit true (Reference.pending 3 500)).2
  = (Return false, (commit true (Reference.pending 3 500)).2)
  /\ commit true (commit true (Reference.pending 3 500)).2
     = (Return false, (commit true (Reference.pending 3 500)).2).
Proof.
  assert (Hflushed : commit true (Reference.pending 3 500)
                     = (Return true, (commit true (Reference.pending 3 500)).2))
    by (vm_compute; reflexivity).
  split; apply (commit_twice true (Reference.pending 3 500) _ Hflushed).
Defined.

Lemma commit_interrupted_witness :
  exists k st',
    (k < 1)%nat
    /\ @commit _ Reference.unreachable true (Reference.pending 2 500)
       = (Raise TransportError, st')
    /\ es_requests st' = take (S k) [TO_SEND (Reference.pending 2 500)]
    /\ TO_SEND st' = TO_SEND (Reference.pending 2 500).
Proof.
  apply (@commit_interrupted _ Reference.unreachable true
           (Reference.pending 2 500)
           [TO_SEND (Reference.pending 2 500)] TransportError
           (world (Reference.pending 2 500))).
  - vm_compute. discriminate.
  - by left.
  - vm_compute. reflexivity.
  - vm_compute. reflexivity.
Defined.

Lemma commit_clean_flush_witness :
  LOG (commit true (Reference.pending 3 500)).2 =
    [mkLog INFO "commiting %i line(s) to ES..." [ArgInt 3]].
Proof.
  assert (Hne : TO_SEND (Reference.pending 3 500) <> [])
    by (vm_compute; discriminate).
  assert (Hcs : chunks (TO_SEND (Reference.pending 3 500)) 500
                = Return [TO_SEND (Reference.pending 3 500)])
    by (vm_compute; reflexivity).
  assert (Hall : bulk_all [TO_SEND (Reference.pending 3 500)]
                          (world (Reference.pending 3 500))
                 = (Return [(3, [])], world (Reference.pending 3 500)))
    by (vm_compute; reflexivity).
  apply (proj2 (commit_clean_flush true (Reference.pending 3 500)
                  [TO_SEND (Reference.pending 3 500)] [(3, [])]
                  (world (Reference.pending 3 500))
                  Hne (or_introl eq_refl) Hcs Hall)).
  by repeat constructor.
Defined.

Lemma process_transform_verdicts_witness :
  process (Some "{}") Fixtures.decline (default_index_func "logs")
          (Reference.pending 1 500)
    = (Return false, Reference.pending 1 500)
  /\ (process (Some "{}") Fixtures.as_list (default_index_func "logs")
              (Reference.pending 1 500)).1
     = Return false.
Proof.
  assert (Hdecoded : json_loads (strip "{}") = Some (PyDict ∅))
    by (vm_compute; reflexivity).
  assert (Hindex :
    default_index_func "logs" ∅ (world (Reference.pending 1 500))
    = (Return (PyStr "logs"), ∅, world (Reference.pending 1 500)))
    by (vm_compute; reflexivity).
  destruct (process_transform_verdicts "{}" Fixtures.decline
              (default_index_func "logs") (Reference.pending 1 500)
              ∅ (PyStr "logs") ∅ (world (Reference.pending 1 500))
              eq_refl Hdecoded Hindex) as (Hnone & _ & _).
  destruct (process_transform_verdicts "{}" Fixtures.as_list
              (default_index_func "logs") (Reference.pending 1 500)
              ∅ (PyStr "logs") ∅ (world (Reference.pending 1 500))
              eq_refl Hdecoded Hindex) as (_ & Hother & _).
  split.
  - rewrite (Hnone ∅ (world (Reference.pending 1 500)) eq_refl).
    reflexivity.
  - rewrite (Hother (PyList []) ∅ (world (Reference.pending 1 500))
               eq_refl ltac:(discriminate) eq_refl).
    reflexivity.
Defined.


Lemma default_index_same_instant_witness :
  (default_index_func "logs-%Y.%m.%d"
     (Fixtures.stamped_doc "2023-01-01T01:30:00+02:00")
     (Reference.mkEnv Reference.noon 500)).1.1
  = (default_index_func "logs-%Y.%m.%d"
       (Fixtures.stamped_doc "2022-12-31T23:30:00Z")
       (Reference.mkEnv Reference.noon 500)).1.1.
Proof.
  apply (default_index_same_instant "logs-%Y.%m.%d"
           (Fixtures.stamped_doc "2023-01-01T01:30:00+02:00")
           (Fixtures.stamped_doc "2022-12-31T23:30:00Z")
           (Reference.mkEnv Reference.noon 500)
           (PyStr "2023-01-01T01:30:00+02:00")
           (PyStr "2022-12-31T23:30:00Z")
           (Datetime.mkDatetime 2023 1 1 1 30 0 0
                                (Some (Datetime.timedelta_of 2 0 0)))
           (Datetime.mkDatetime 2022 12 31 23 30 0 0 (Some 0))
           (Datetime.timedelta_of 2 0 0) 0);
    vm_compute; reflexivity.
Defined.


Lemma default_index_overflow_witness :
  default_index_func "logs-%Y"
    (Fixtures.stamped_doc "0001-01-01T00:30:00+02:00")
    (Reference.mkEnv Reference.noon 500)
  = (Raise OverflowError,
     Fixtures.stamped_doc "0001-01-01T00:30:00+02:00",
     Reference.mkEnv Reference.noon 500).
Proof.
  apply (default_index_overflow "logs-%Y"
           (Fixtures.stamped_doc "0001-01-01T00:30:00+02:00")
           (Reference.mkEnv Reference.noon 500)
           (PyStr "0001-01-01T00:30:00+02:00")
           (Datetime.mkDatetime 1 1 1 0 30 0 0
                                (Some (Datetime.timedelta_of 2 0 0)))
           (Datetime.timedelta_of 2 0 0)).
  - vm_compute. reflexivity.
  - vm_compute. reflexivity.
  - reflexivity.
  - left. vm_compute. reflexivity.
Defined.

Lemma rotation_waits_for_unread_witness :
  patched_is_new_file (mkPygtail None 10 40 7 (Return 8))
  = Return (PyBool false).
Proof.
  apply (rotation_waits_for_unread (mkPygtail None 10 40 7 (Return 8)) 8).
  - reflexivity.
  - by left.
  - cbn. lia.
Defined.

Lemma _get_func_refuses_witness :
  _get_func Fixtures.import_module Fixtures.getattr
            "transform-func" "no_transform" (Reference.pending 0 500)
  = (Exited 1,
     mkState [] [mkLog ERROR "%s must follow 'pkg.function_name'"
                       [ArgStr "transform-func"]]
             [] (world (Reference.pending 0 500)))
  /\ (_get_func Fixtures.import_module Fixtures.getattr "transform-func"
                "jsonlog2elasticsearch.no_transform"
                (Reference.pending 0 500)).1
     = Done no_transform.
Proof.
  split.
  - apply (proj1 (_get_func_refuses Fixtures.import_module Fixtures.getattr
                    "transform-func" "no_transform"
                    (Reference.pending 0 500))).
    by left.
  - destruct (proj2 (_get_func_refuses
                       Fixtures.import_module Fixtures.getattr
                       "transform-func" "jsonlog2elasticsearch.no_transform"
                       (Reference.pending 0 500))) as [_ ->].
    + intros [Hno|[(name & Hname & _)|Hparen]]; discriminate.
    + reflexivity.
Defined.

Lemma func_path_round_trip_witness :
  String.app (module_path_of "os.path.join") (String "." (func_name_of "os.path.join"))
  = "os.path.join"
  /\ contains "." (func_name_of "os.path.join") = false.
Proof.
  destruct (func_path_round_trip "os.path.join") as (Hjoin & Hname & _).
  split; [by apply Hjoin|exact Hname].
Defined.

Lemma install_requires_plain_witness :
  install_requires
    (join (String LF EmptyString) ["elasticsearch"; "pygtail"; "mflog"])
  = ["elasticsearch"; "pygtail"; "mflog"].
Proof.
  apply (proj1 (install_requires_plain ["elasticsearch"; "pygtail"; "mflog"]
                  ltac:(repeat constructor; discriminate))).
Defined.

Lemma shutdown_after_signal_witness :
  main_loop "app.log" no_transform (default_index_func "logs")
            [Fixtures.interrupted; Fixtures.burst] (Fixtures.fresh 0 500)
  = main_loop "app.log" no_transform (default_index_func "logs")
              [Fixtures.interrupted] (Fixtures.fresh 0 500).
Proof.
  apply (shutdown_after_signal "app.log" no_transform
           (default_index_func "logs") [] Fixtures.interrupted
           [Fixtures.burst] (Fixtures.fresh 0 500)).
  exists 15. left. cbn. auto.
Defined.

Lemma iteration_finishes_witness :
  let d' := (iteration "app.log" no_transform (default_index_func "logs")
                       Fixtures.interrupted (Fixtures.fresh 0 500)).2 in
  TO_SEND (globals d') = []
  /\ slept d' = 3
  /\ touched d' = ["app.log"].
Proof.
  apply (iteration_finishes "app.log" no_transform (default_index_func "logs")
           Fixtures.interrupted (Fixtures.fresh 0 500)).
  vm_compute. reflexivity.
Defined.

Lemma drain_buffer_bound_witness :
  let out := drain "app.log" no_transform (default_index_func "logs")
                   (events Fixtures.burst) StopIteration
                   (Fixtures.fresh 0 500) in
  (length (TO_SEND (globals out.2)) <= 500)%nat
  /\ (out.1 = Return tt -> (length (TO_SEND (globals out.2)) < 500)%nat)
  /\ exists full,
       es_requests (globals out.2) = [] ++ full
       /\ Forall (fun c => length c = 500%nat) full.
Proof.
  apply (drain_buffer_bound "app.log" no_transform (default_index_func "logs")
           (events Fixtures.burst) StopIteration (Fixtures.fresh 0 500)).
  cbn. lia.
Defined.

Lemma iteration_request_sizes_witness :
  exists full tail,
    es_requests
      (globals (iteration "app.log" no_transform (default_index_func "logs")
                          Fixtures.burst (Fixtures.fresh 0 500)).2)
    = [] ++ full ++ tail
    /\ Forall (fun c => length c = 500%nat) full
    /\ (tail = [] \/ exists c, tail = [c] /\ (1 <= length c < 500)%nat).
Proof.
  apply (iteration_request_sizes "app.log" no_transform
           (default_index_func "logs") Fixtures.burst (Fixtures.fresh 0 500)).
  - cbn. lia.
  - vm_compute. reflexivity.
Defined.

Lemma iteration_delivers_witness :
  exists new,
    concat (es_requests
              (globals (iteration "app.log" no_transform
                                  (default_index_func "logs")
                                  Fixtures.burst (Fixtures.fresh 2 500)).2))
    = [] ++ TO_SEND (Reference.pending 2 500) ++ new
    /\ (length new <= 601)%nat.
Proof.
  apply (iteration_delivers "app.log" no_transform
           (default_index_func "logs") Fixtures.burst (Fixtures.fresh 2 500)).
  vm_compute. reflexivity.
Defined.

(** A burst of 601 lines on an empty buffer ends in two bulk requests, of
    500 and 101 operations, and nothing pending. *)
Example burst_of_601 :
  let d' := (iteration "app.log" no_transform (default_index_func "logs")
                       Fixtures.burst (Fixtures.fresh 0 500)).2 in
  map length (es_requests (globals d')) = [500; 101]%nat
  /\ TO_SEND (globals d') = [].
Proof. split; vm_compute; reflexivity. Qed.

Lemma signals_leave_pipeline_alone_witness :
  exists d'',
    drain "app.log" no_transform (default_index_func "logs")
          [Line (Some "{}"); Line (Some "{}")] FileNotFound
          (Fixtures.fresh 0 500)
      = (Return tt, d'')
    /\ same_but_log
         (globals (drain "app.log" no_transform (default_index_func "logs")
                         (events Fixtures.interrupted) FileNotFound
                         (Fixtures.fresh 0 500)).2)
         (globals d'')
    /\ touched (drain "app.log" no_transform (default_index_func "logs")
                      (events Fixtures.interrupted) FileNotFound
                      (Fixtures.fresh 0 500)).2
       = touched d''.
Proof.
  apply (signals_leave_pipeline_alone "app.log" no_transform
           (default_index_func "logs") (events Fixtures.interrupted)
           FileNotFound (Fixtures.fresh 0 500)).
  vm_compute. reflexivity.
Defined.
